(** * Customer Measurements: the [App] component of [src/App.tsx]

    A shallow embedding of the component's state, of its filter effect
    and of its four handlers ([fetchCustomers], [handleSubmit],
    [handleEdit], [handleDelete]), with the properties of the
    specification stated over them.

    Strings are [String.string]; a character stands for one code unit of
    a JavaScript string.  Only equality of code units is ever used. *)

From Stdlib Require Import String Ascii List Bool Arith Lia.
From stdpp Require Import base list strings.
Import ListNotations.

(** ** JavaScript strings *)

Module Js.

(** [s.startsWith(search)]: [search] occurs in [s] at index 0. *)
Fixpoint startsWith (s search : string) {struct search} : bool :=
  match search, s with
  | EmptyString, _ => true
  | String _ _, EmptyString => false
  | String a search', String b s' => Ascii.eqb a b && startsWith s' search'
  end.

(** [s.includes(search)]: [search] occurs in [s] at some index
    (StringIndexOf from position 0 is not -1). *)
Fixpoint includes (s search : string) : bool :=
  startsWith s search ||
  match s with
  | EmptyString => false
  | String _ s' => includes s' search
  end.

(** The relation the specification calls "is a substring of". *)
Definition Substring (t s : string) : Prop :=
  exists pre post, s = pre +:+ t +:+ post.

(** A lower-casing of the ASCII letters, used to run the model on
    concrete inputs.  The development itself is parametric in
    [toLowerCase]. *)
Definition lowerAscii (c : ascii) : ascii :=
  let n := nat_of_ascii c in
  if (65 <=? n) && (n <=? 90) then ascii_of_nat (n + 32) else c.

Fixpoint asciiToLowerCase (s : string) : string :=
  match s with
  | EmptyString => EmptyString
  | String c s' => String (lowerAscii c) (asciiToLowerCase s')
  end.

End Js.

(** ** Data model *)

(** Modelled from the spec: the [Customer] type of [./types/customer],
    which is not among the sources.  The fields are those of section 3
    of the specification; [App.tsx] reads [id], [name], [shirt], [pants]
    and [phone], and calls string methods on [name] and [phone]. *)
Module Customer.
Record t : Type := mk {
  id : string;
  name : string;
  shirt : string;
  pants : string;
  phone : string;
  created_at : string
}.
End Customer.

(** The object held by the [formData] state variable. *)
Module FormData.
Record t : Type := mk {
  name : string;
  shirt : string;
  pants : string;
  phone : string
}.

(** [{ name: '', shirt: '', pants: '', phone: '' }] *)
Definition empty : t := mk "" "" "" "".
End FormData.

(** ** The filter of the second [useEffect] *)

Section Filter.

(** [String.prototype.toLowerCase], a built-in of the platform. *)
Variable toLowerCase : string -> string.

(** The callback
    [customer => customer.name.toLowerCase().includes(searchQuery.toLowerCase())
                 || customer.phone.includes(searchQuery)]. *)
Definition matchesQuery (searchQuery : string) (customer : Customer.t) : bool :=
  Js.includes (toLowerCase (Customer.name customer)) (toLowerCase searchQuery)
  || Js.includes (Customer.phone customer) searchQuery.

(** [const filtered = customers.filter(...)] *)
Definition filtered (customers : list Customer.t) (searchQuery : string)
  : list Customer.t :=
  List.filter (matchesQuery searchQuery) customers.

(** The matching rule in the words of the specification: the
    case-folded query is a substring of the case-folded name, or the
    unfolded query is a substring of the phone. *)
Definition Retained (searchQuery : string) (customer : Customer.t) : Prop :=
  Js.Substring (toLowerCase searchQuery) (toLowerCase (Customer.name customer))
  \/ Js.Substring searchQuery (Customer.phone customer).

End Filter.

(** ** The collaborators: remote store, notifications, prompt *)

(** A value that is thrown and caught: the [error] of a store response
    or the reason of a rejected promise.  The handlers only test it for
    presence and pass it to [console.error]. *)
Definition JsError : Type := string.

(** The [{ data, error }] object a store query resolves to. *)
Module Response.
Record t : Type := mk {
  data : option (list Customer.t);
  error : option JsError
}.
End Response.

(** What [await] finds. *)
Inductive Awaited (A : Type) : Type :=
  | Resolved (r : A)
  | Rejected (e : JsError).
Arguments Resolved {A} r.
Arguments Rejected {A} e.

(** The four queries built on [supabase.from('customers')]. *)
Inductive StoreCall : Type :=
  | Select                                       (* .select('*').order('created_at', { ascending: false }) *)
  | Insert (rows : list FormData.t)              (* .insert([formData]) *)
  | Update (fields : FormData.t) (id : string)   (* .update(formData).eq('id', id) *)
  | Delete (id : string).                        (* .delete().eq('id', id) *)

Inductive ToastKind : Type := Success | Error.

(** Everything a handler does to the outside, in program order. *)
Inductive Event : Type :=
  | PreventDefault
  | Confirm (message : string)
  | Store (call : StoreCall)
  | Toast (kind : ToastKind) (message : string)
  | ConsoleError (label : string) (e : JsError).

(** The error a query ends with, if any: a rejected promise, or a
    resolved response whose [error] is set ([if (error) throw error]). *)
Definition failure (p : Awaited Response.t) : option JsError :=
  match p with
  | Rejected e => Some e
  | Resolved r => Response.error r
  end.

(** ** Component state *)

(** The six [useState] variables of [App]. *)
Record AppState : Type := mkAppState {
  customers : list Customer.t;
  filteredCustomers : list Customer.t;
  loading : bool;
  searchQuery : string;
  editingCustomer : option Customer.t;
  formData : FormData.t
}.

(** The arguments of the [useState] calls. *)
Definition initialState : AppState :=
  {| customers := []; filteredCustomers := []; loading := true;
     searchQuery := ""; editingCustomer := None; formData := FormData.empty |}.

(** A handler in progress: the state as the setters called so far leave
    it, whether [setCustomers] has been called (it always stores a new
    array, so the dependency [customers] of the filter effect changes),
    and the events emitted so far. *)
Record Run : Type := mkRun {
  st : AppState;
  customersReplaced : bool;
  log : list Event
}.

Definition start (s : AppState) : Run :=
  {| st := s; customersReplaced := false; log := [] |}.

(** ** Handlers as state-and-exception computations *)

Inductive Completion (A : Type) : Type :=
  | Normal (a : A)
  | Thrown (e : JsError).
Arguments Normal {A} a.
Arguments Thrown {A} e.

Definition M (A : Type) : Type := Run -> Completion A * Run.

#[export] Instance M_ret : MRet M := fun A a r => (Normal a, r).

#[export] Instance M_bind : MBind M := fun A B k m r =>
  match m r with
  | (Normal a, r') => k a r'
  | (Thrown e, r') => (Thrown e, r')
  end.

Definition throw {A : Type} (e : JsError) : M A := fun r => (Thrown e, r).

(** [try { body } catch (error) { handler }] *)
Definition tryCatch {A : Type} (body : M A) (handler : JsError -> M A) : M A :=
  fun r =>
    match body r with
    | (Normal a, r') => (Normal a, r')
    | (Thrown e, r') => handler e r'
    end.

(** [try { body } finally { finalizer }]: the finalizer runs on both
    exits, and the completion of the body stands unless the finalizer
    itself throws. *)
Definition tryFinally {A : Type} (body : M A) (finalizer : M unit) : M A :=
  fun r =>
    match body r with
    | (c, r') =>
        match finalizer r' with
        | (Normal _, r'') => (c, r'')
        | (Thrown e, r'') => (Thrown e, r'')
        end
    end.

Definition emit (ev : Event) : M unit := fun r =>
  (Normal tt, {| st := st r; customersReplaced := customersReplaced r;
                 log := log r ++ [ev] |}).

Definition update (f : AppState -> AppState) (replaced : bool) : M unit := fun r =>
  (Normal tt, {| st := f (st r);
                 customersReplaced := customersReplaced r || replaced;
                 log := log r |}).

(** The state setters. *)
Definition setCustomers (v : list Customer.t) : M unit :=
  update (fun s => {| customers := v; filteredCustomers := filteredCustomers s;
                      loading := loading s; searchQuery := searchQuery s;
                      editingCustomer := editingCustomer s; formData := formData s |})
         true.

Definition setFilteredCustomers (v : list Customer.t) : M unit :=
  update (fun s => {| customers := customers s; filteredCustomers := v;
                      loading := loading s; searchQuery := searchQuery s;
                      editingCustomer := editingCustomer s; formData := formData s |})
         false.

Definition setLoading (v : bool) : M unit :=
  update (fun s => {| customers := customers s; filteredCustomers := filteredCustomers s;
                      loading := v; searchQuery := searchQuery s;
                      editingCustomer := editingCustomer s; formData := formData s |})
         false.

Definition setSearchQuery (v : string) : M unit :=
  update (fun s => {| customers := customers s; filteredCustomers := filteredCustomers s;
                      loading := loading s; searchQuery := v;
                      editingCustomer := editingCustomer s; formData := formData s |})
         false.

Definition setEditingCustomer (v : option Customer.t) : M unit :=
  update (fun s => {| customers := customers s; filteredCustomers := filteredCustomers s;
                      loading := loading s; searchQuery := searchQuery s;
                      editingCustomer := v; formData := formData s |})
         false.

Definition setFormData (v : FormData.t) : M unit :=
  update (fun s => {| customers := customers s; filteredCustomers := filteredCustomers s;
                      loading := loading s; searchQuery := searchQuery s;
                      editingCustomer := editingCustomer s; formData := v |})
         false.

(** [if (error) throw error] *)
Definition throwIfError (error : option JsError) : M unit :=
  match error with
  | Some e => throw e
  | None => mret tt
  end.

(** ** The component *)

Section App.

(** [String.prototype.toLowerCase]. *)
Variable toLowerCase : string -> string.

(** What the store answers to each query issued while a handler runs,
    and what the user answers to [confirm]. *)
Variable supabase : StoreCall -> Awaited Response.t.
Variable confirm : string -> bool.

(** The values of the state variables in the render whose closures
    are running: inside a handler, [editingCustomer] and [formData]
    are constants of that render. *)
Variable render : AppState.

Definition await {A : Type} (p : Awaited A) : M A :=
  match p with
  | Resolved r => mret r
  | Rejected e => throw e
  end.

(** [await supabase.from('customers')...] *)
Definition query (call : StoreCall) : M Response.t :=
  emit (Store call);; await (supabase call).

(** Lines 24-30: the effect with dependencies [[searchQuery, customers]]. *)
Definition filterEffect : M unit :=
  setFilteredCustomers (filtered toLowerCase (customers render) (searchQuery render)).

(** Lines 32-48. *)
Definition fetchCustomers : M unit :=
  tryFinally
    (tryCatch
       (r ← query Select;
        throwIfError (Response.error r);;
        setCustomers (default [] (Response.data r));;
        setFilteredCustomers (default [] (Response.data r)))
       (fun error =>
          emit (Toast Error "Error fetching customers");;
          emit (ConsoleError "Error:" error)))
    (setLoading false).

(** Lines 50-82. *)
Definition handleSubmit : M unit :=
  emit PreventDefault;;
  setLoading true;;
  tryFinally
    (tryCatch
       (match editingCustomer render with
        | Some editing =>
            r ← query (Update (formData render) (Customer.id editing));
            throwIfError (Response.error r);;
            emit (Toast Success "Customer updated successfully")
        | None =>
            r ← query (Insert [formData render]);
            throwIfError (Response.error r);;
            emit (Toast Success "Customer added successfully")
        end;;
        setFormData FormData.empty;;
        setEditingCustomer None;;
        fetchCustomers)
       (fun error =>
          let errorMessage :=
            match editingCustomer render with
            | Some _ => "Error updating customer"
            | None => "Error adding customer"
            end in
          emit (Toast Error errorMessage);;
          emit (ConsoleError "Error:" error)))
    (setLoading false).

(** Lines 84-92. *)
Definition handleEdit (customer : Customer.t) : M unit :=
  setEditingCustomer (Some customer);;
  setFormData {| FormData.name := Customer.name customer;
                 FormData.shirt := Customer.shirt customer;
                 FormData.pants := Customer.pants customer;
                 FormData.phone := Customer.phone customer |}.

(** Lines 94-113. *)
Definition handleDelete (id : string) : M unit :=
  emit (Confirm "Are you sure you want to delete this customer?");;
  if negb (confirm "Are you sure you want to delete this customer?") then mret tt
  else
    setLoading true;;
    tryFinally
      (tryCatch
         (r ← query (Delete id);
          throwIfError (Response.error r);;
          emit (Toast Success "Customer deleted successfully");;
          fetchCustomers)
         (fun error =>
            emit (Toast Error "Error deleting customer");;
            emit (ConsoleError "Error:" error)))
      (setLoading false).

(** Line 126: [onChange] of the search box. *)
Definition handleSearchChange (value : string) : M unit :=
  setSearchQuery value.

(** Lines 186-189: [onClick] of the Cancel button. *)
Definition handleCancel : M unit :=
  setEditingCustomer None;;
  setFormData FormData.empty.

End App.

(** One turn of the component: the handler runs in the closures of the
    render [s]; in the render that follows, the filter effect runs if one
    of its dependencies changed, with the values of that render.  A turn
    is taken as a whole: no other event of the user is handled while the
    handler waits for the store (section 5 of the specification). *)
Definition dependenciesChanged (before : AppState) (r : Run) : bool :=
  customersReplaced r || negb (String.eqb (searchQuery before) (searchQuery (st r))).

Definition commit (toLowerCase : string -> string) (before : AppState) (r : Run) : Run :=
  if dependenciesChanged before r
  then snd (filterEffect toLowerCase (st r) r)
  else r.

Definition dispatch (toLowerCase : string -> string)
    (handler : AppState -> M unit) (s : AppState) : Run :=
  commit toLowerCase s (snd (handler s (start s))).

(** ** Reading a log *)

Definition storeCalls (l : list Event) : list StoreCall :=
  omap (fun ev => match ev with Store c => Some c | _ => None end) l.

Definition toasts (l : list Event) : list (ToastKind * string) :=
  omap (fun ev => match ev with Toast k m => Some (k, m) | _ => None end) l.

Definition isSelect (c : StoreCall) : bool :=
  match c with Select => true | _ => false end.

Definition isInsert (c : StoreCall) : bool :=
  match c with Insert _ => true | _ => false end.

Definition isUpdate (c : StoreCall) : bool :=
  match c with Update _ _ => true | _ => false end.

(** The number of re-fetches a log records. *)
Definition fetches (l : list Event) : nat :=
  length (List.filter isSelect (storeCalls l)).

(** ** The filter on rows as the store delivers them *)

(** Modelled from the spec: [phone] is optional (section 3), so a row
    delivered by the store may hold no string there.  [None] stands for
    [null] or [undefined]; reading [.includes] from it throws. *)
Module Row.
Record t : Type := mk {
  id : string;
  name : string;
  shirt : string;
  pants : string;
  phone : option string;
  created_at : string
}.

Definition ofCustomer (c : Customer.t) : t :=
  {| id := Customer.id c; name := Customer.name c; shirt := Customer.shirt c;
     pants := Customer.pants c; phone := Some (Customer.phone c);
     created_at := Customer.created_at c |}.
End Row.

Section RowFilter.

Variable toLowerCase : string -> string.

(** The left operand of [||]. *)
Definition nameMatches (searchQuery : string) (row : Row.t) : bool :=
  Js.includes (toLowerCase (Row.name row)) (toLowerCase searchQuery).

(** The callback of the filter, with [||] evaluating its right operand
    only when the left one is false. *)
Definition rowMatchesQuery (searchQuery : string) (row : Row.t) : Completion bool :=
  if nameMatches searchQuery row then Normal true
  else match Row.phone row with
       | Some phone => Normal (Js.includes phone searchQuery)
       | None => Thrown "TypeError: Cannot read properties of null (reading 'includes')"
       end.

(** [Array.prototype.filter]: the callback is called on the elements
    in index order, and the first exception ends the call. *)
Fixpoint filterRows (rows : list Row.t) (searchQuery : string)
  : Completion (list Row.t) :=
  match rows with
  | [] => Normal []
  | row :: rest =>
      match rowMatchesQuery searchQuery row with
      | Thrown e => Thrown e
      | Normal keep =>
          match filterRows rest searchQuery with
          | Thrown e => Thrown e
          | Normal kept => Normal (if keep then row :: kept else kept)
          end
      end
  end.

End RowFilter.

Definition hasStringPhone (row : Row.t) : Prop := is_Some (Row.phone row).

(** ** Sample data *)

Definition alice : Customer.t :=
  {| Customer.id := "1"; Customer.name := "Alice"; Customer.shirt := "Chest: 40";
     Customer.pants := "Waist: 32"; Customer.phone := "555-1111";
     Customer.created_at := "2024-01-02" |}.

Definition bob : Customer.t :=
  {| Customer.id := "2"; Customer.name := "Bob"; Customer.shirt := "Chest: 42";
     Customer.pants := "Waist: 34"; Customer.phone := "555-2222";
     Customer.created_at := "2024-01-01" |}.

(** A row without a phone. *)
Definition carol : Row.t :=
  {| Row.id := "3"; Row.name := "Carol"; Row.shirt := "Chest: 38";
     Row.pants := "Waist: 30"; Row.phone := None;
     Row.created_at := "2024-01-03" |}.

Definition failingStore (c : StoreCall) : Awaited Response.t :=
  Resolved {| Response.data := None; Response.error := Some "permission denied" |}.

Definition offlineStore (c : StoreCall) : Awaited Response.t :=
  Rejected "TypeError: Failed to fetch".

Definition workingStore (c : StoreCall) : Awaited Response.t :=
  match c with
  | Select => Resolved {| Response.data := Some [bob]; Response.error := None |}
  | _ => Resolved {| Response.data := None; Response.error := None |}
  end.

Definition accept (message : string) : bool := true.
Definition decline (message : string) : bool := false.

(** The list is loaded, the search box holds "ali", and Alice is being
    edited with a changed phone number in the form. *)
Definition editingAlice : AppState :=
  {| customers := [alice; bob]; filteredCustomers := [alice]; loading := false;
     searchQuery := "ali"; editingCustomer := Some alice;
     formData := {| FormData.name := "Alice"; FormData.shirt := "Chest: 40";
                    FormData.pants := "Waist: 32"; FormData.phone := "555-3333" |} |}.

(** The list is loaded and a new customer has been typed into the form. *)
Definition creatingDave : AppState :=
  {| customers := [alice; bob]; filteredCustomers := [alice; bob]; loading := false;
     searchQuery := ""; editingCustomer := None;
     formData := {| FormData.name := "Dave"; FormData.shirt := "Chest: 44";
                    FormData.pants := "Waist: 36"; FormData.phone := "" |} |}.

(** ** The form inputs *)

Section FormInputs.

(** The render whose closures are running: [{ ...formData, name: v }]
    spreads the [formData] of that render. *)
Variable render : AppState.

(** Line 144: [onChange] of the name input. *)
Definition handleNameChange (value : string) : M unit :=
  setFormData {| FormData.name := value;
                 FormData.shirt := FormData.shirt (formData render);
                 FormData.pants := FormData.pants (formData render);
                 FormData.phone := FormData.phone (formData render) |}.

(** Line 155: [onChange] of the shirt input. *)
Definition handleShirtChange (value : string) : M unit :=
  setFormData {| FormData.name := FormData.name (formData render);
                 FormData.shirt := value;
                 FormData.pants := FormData.pants (formData render);
                 FormData.phone := FormData.phone (formData render) |}.

(** Line 166: [onChange] of the pants input. *)
Definition handlePantsChange (value : string) : M unit :=
  setFormData {| FormData.name := FormData.name (formData render);
                 FormData.shirt := FormData.shirt (formData render);
                 FormData.pants := value;
                 FormData.phone := FormData.phone (formData render) |}.

(** Line 176: [onChange] of the phone input. *)
Definition handlePhoneChange (value : string) : M unit :=
  setFormData {| FormData.name := FormData.name (formData render);
                 FormData.shirt := FormData.shirt (formData render);
                 FormData.pants := FormData.pants (formData render);
                 FormData.phone := value |}.

End FormInputs.

(** ** Mount and the turns of a session *)

(** The first render: both effects run.  [fetchCustomers()] (lines
    20-22) issues its query, the filter effect runs on the initial list
    and query, and the response of the store is handled afterwards; the
    filter effect emits nothing, so the log is that of the fetch. *)
Definition mount (toLowerCase : string -> string)
    (supabase : StoreCall -> Awaited Response.t) : Run :=
  dispatch toLowerCase
    (fun render => filterEffect toLowerCase render;; fetchCustomers supabase)
    initialState.

(** The intents the interface emits: the [onChange], [onClick] and
    [onSubmit] attributes of lines 126-252. *)
Inductive Action : Type :=
  | SearchChange (value : string)      (* line 126 *)
  | NameChange (value : string)        (* line 144 *)
  | ShirtChange (value : string)       (* line 155 *)
  | PantsChange (value : string)       (* line 166 *)
  | PhoneChange (value : string)       (* line 176 *)
  | Cancel                             (* lines 186-189 *)
  | Submit                             (* line 136 *)
  | Edit (customer : Customer.t)       (* line 245 *)
  | DeleteRow (id : string).           (* line 252 *)

(** One turn: an intent, with what the store and the user answer while
    its handler runs. *)
Record Turn : Type := mkTurn {
  action : Action;
  store : StoreCall -> Awaited Response.t;
  answer : string -> bool
}.

Definition handlerOf (t : Turn) : AppState -> M unit :=
  match action t with
  | SearchChange value => fun _ => handleSearchChange value
  | NameChange value => fun render => handleNameChange render value
  | ShirtChange value => fun render => handleShirtChange render value
  | PantsChange value => fun render => handlePantsChange render value
  | PhoneChange value => fun render => handlePhoneChange render value
  | Cancel => fun _ => handleCancel
  | Submit => handleSubmit (store t)
  | Edit customer => fun _ => handleEdit customer
  | DeleteRow id => fun _ => handleDelete (store t) (answer t) id
  end.

Definition step (toLowerCase : string -> string) (s : AppState) (t : Turn) : AppState :=
  st (dispatch toLowerCase (handlerOf t) s).

(** The state after mount and a sequence of turns. *)
Definition session (toLowerCase : string -> string)
    (supabase : StoreCall -> Awaited Response.t) (turns : list Turn) : AppState :=
  fold_left (step toLowerCase) turns (st (mount toLowerCase supabase)).

(** ** What is rendered *)

(** The content of the submit button (lines 200-207). *)
Inductive SubmitContent : Type :=
  | Spinner
  | Label (text : string).

(** The parts of the returned element that depend on the state
    (lines 115-276). *)
Record View : Type := mkView {
  searchValue : string;              (* line 125 *)
  heading : string;                  (* line 134 *)
  nameValue : string;                (* line 143 *)
  shirtValue : string;               (* line 154 *)
  pantsValue : string;               (* line 165 *)
  phoneValue : string;               (* line 175 *)
  cancelVisible : bool;              (* line 183 *)
  submitDisabled : bool;             (* line 197 *)
  submitContent : SubmitContent;     (* lines 200-207 *)
  tableRows : list Customer.t;       (* lines 236-261 *)
  emptyMessage : bool                (* lines 262-268 *)
}.

Definition view (s : AppState) : View :=
  {| searchValue := searchQuery s;
     heading := match editingCustomer s with
                | Some _ => "Edit Customer"
                | None => "Add New Customer"
                end;
     nameValue := FormData.name (formData s);
     shirtValue := FormData.shirt (formData s);
     pantsValue := FormData.pants (formData s);
     phoneValue := FormData.phone (formData s);
     cancelVisible := match editingCustomer s with Some _ => true | None => false end;
     submitDisabled := loading s;
     submitContent := if loading s then Spinner
                      else Label match editingCustomer s with
                                 | Some _ => "Update Customer"
                                 | None => "Add Customer"
                                 end;
     tableRows := filteredCustomers s;
     emptyMessage := length (filteredCustomers s) =? 0 |}.

(** ** Vocabulary for the statements *)

(** The mutation a submission issues in a render: lines 55-59 when a
    record is being edited, lines 64-66 otherwise. *)
Definition submitCall (s : AppState) : StoreCall :=
  match editingCustomer s with
  | Some editing => Update (formData s) (Customer.id editing)
  | None => Insert [formData s]
  end.

(** The table shows the list in hand filtered by the query in hand. *)
Definition Consistent (toLowerCase : string -> string) (s : AppState) : Prop :=
  filteredCustomers s = filtered toLowerCase (customers s) (searchQuery s).

(** ** More sample data *)

(** Every mutation succeeds, the re-fetch does not. *)
Definition staleStore (c : StoreCall) : Awaited Response.t :=
  match c with
  | Select => Rejected "TypeError: Failed to fetch"
  | _ => Resolved {| Response.data := None; Response.error := None |}
  end.

(** ** Proof automation *)

Ltac unfold_run :=
  unfold dispatch, commit, dependenciesChanged, filterEffect,
    handleSubmit, handleDelete, handleEdit, handleCancel, handleSearchChange,
    fetchCustomers, query, await, throwIfError, tryFinally, tryCatch,
    setCustomers, setFilteredCustomers, setLoading, setSearchQuery,
    setEditingCustomer, setFormData, update, emit, throw, start,
    mbind, M_bind, mret, M_ret.

Ltac case_response p :=
  let d := fresh "data" in
  let er := fresh "error" in
  let e := fresh "reason" in
  destruct p as [[d [er|]]|e].

Ltac unfold_inputs :=
  unfold handleNameChange, handleShirtChange, handlePantsChange, handlePhoneChange.

(** ** Properties of the string operations *)

Lemma startsWith_spec (s search : string) :
  Js.startsWith s search = true <-> exists post, s = search +:+ post.
Proof.
  revert s; induction search as [|a search IH]; intros s; simpl.
  - split; [intros _; exists s; reflexivity | reflexivity].
  - destruct s as [|b s].
    + split; [discriminate | intros [post H]; discriminate].
    + rewrite andb_true_iff, Ascii.eqb_eq, IH. split.
      * intros [-> [post ->]]. exists post. reflexivity.
      * intros [post H]. injection H as -> ->. split; [reflexivity | eauto].
Qed.

Lemma includes_spec (s search : string) :
  Js.includes s search = true <-> Js.Substring search s.
Proof.
  unfold Js.Substring. induction s as [|b s IH]; simpl.
  - rewrite orb_false_r, startsWith_spec. split.
    + intros [post H]. exists "", post. exact H.
    + intros [pre [post H]]. destruct pre; [exists post; exact H | discriminate].
  - rewrite orb_true_iff, startsWith_spec, IH. split.
    + intros [[post H] | [pre [post H]]].
      * exists "", post. exact H.
      * exists (String b pre), post. simpl. rewrite H. reflexivity.
    + intros [pre [post H]]. destruct pre as [|c pre]; simpl in H.
      * left. exists post. exact H.
      * right. injection H as _ H. exists pre, post. exact H.
Qed.

Lemma includes_empty (s : string) : Js.includes s "" = true.
Proof. destruct s; reflexivity. Qed.

Lemma includes_false_spec (s search : string) :
  Js.includes s search = false <-> ~ Js.Substring search s.
Proof.
  rewrite <- includes_spec. destruct (Js.includes s search); split; congruence.
Qed.

Lemma matchesQuery_spec (toLowerCase : string -> string) (q : string) (c : Customer.t) :
  matchesQuery toLowerCase q c = true <-> Retained toLowerCase q c.
Proof.
  unfold matchesQuery, Retained. rewrite orb_true_iff, !includes_spec. reflexivity.
Qed.

(** ** The filter engine *)

Lemma filter_sublist {A : Type} (f : A -> bool) (l : list A) :
  List.filter f l `sublist_of` l.
Proof.
  induction l as [|x l IH]; simpl.
  - constructor.
  - destruct (f x); [apply sublist_skip | apply sublist_cons]; exact IH.
Qed.

Lemma filter_greatest {A : Type} (f : A -> bool) (k l : list A) :
  k `sublist_of` l -> Forall (fun x => f x = true) k ->
  k `sublist_of` List.filter f l.
Proof.
  induction 1 as [|x k l Hkl IH|x k l Hkl IH]; intros Hk; simpl.
  - constructor.
  - inversion Hk as [|? ? Hx Hk']; subst. rewrite Hx.
    apply sublist_skip, IH, Hk'.
  - destruct (f x); [apply sublist_cons|]; apply IH, Hk.
Qed.

Example filter_by_name :
  filtered Js.asciiToLowerCase [alice; bob] "ali" = [alice].
Proof. reflexivity. Qed.

Example filter_by_name_upper :
  filtered Js.asciiToLowerCase [alice; bob] "BO" = [bob].
Proof. reflexivity. Qed.

Example filter_by_phone :
  filtered Js.asciiToLowerCase [alice; bob] "555-22" = [bob].
Proof. reflexivity. Qed.

Example filter_no_match :
  filtered Js.asciiToLowerCase [alice; bob] "zz" = [].
Proof. reflexivity. Qed.

(** C2. For every list of records and every query, the filter returns a
    subsequence of the list (relative order preserved) that retains
    exactly the records matching the rule: the lower-cased query is a
    substring of the lower-cased name, or the query as typed is a
    substring of the phone.  "Exactly" is stated twice: by membership,
    and by the result being the greatest subsequence of matching
    records, which also fixes multiplicities. *)
Theorem filtered_retains_exactly (toLowerCase : string -> string)
    (L : list Customer.t) (q : string) :
  filtered toLowerCase L q `sublist_of` L
  /\ (forall c, In c (filtered toLowerCase L q) <-> In c L /\ Retained toLowerCase q c)
  /\ (forall K, K `sublist_of` L -> Forall (Retained toLowerCase q) K ->
                K `sublist_of` filtered toLowerCase L q).
Proof.
  unfold filtered. split; [apply filter_sublist | split].
  - intros c. rewrite List.filter_In, matchesQuery_spec. reflexivity.
  - intros K HK HR. apply filter_greatest; [exact HK|].
    eapply Forall_impl; [exact HR|]. intros c Hc. apply matchesQuery_spec, Hc.
Qed.

Lemma filtered_retains_exactly_witness :
  filtered Js.asciiToLowerCase [alice; bob] "ali" `sublist_of` [alice; bob]
  /\ (forall c, In c (filtered Js.asciiToLowerCase [alice; bob] "ali")
                <-> In c [alice; bob] /\ Retained Js.asciiToLowerCase "ali" c)
  /\ (forall K, K `sublist_of` [alice; bob] ->
                Forall (Retained Js.asciiToLowerCase "ali") K ->
                K `sublist_of` filtered Js.asciiToLowerCase [alice; bob] "ali").
Proof. exact (filtered_retains_exactly Js.asciiToLowerCase [alice; bob] "ali"). Defined.

(** C3. Filtering with the empty query returns the list itself: the same
    records in the same order.  The one fact used about [toLowerCase] is
    that it maps the empty string to itself. *)
Theorem filtered_empty_query (toLowerCase : string -> string)
    (toLowerCase_empty : toLowerCase "" = "") (L : list Customer.t) :
  filtered toLowerCase L "" = L.
Proof.
  unfold filtered. induction L as [|c L IH]; simpl; [reflexivity|].
  unfold matchesQuery at 1. rewrite toLowerCase_empty, includes_empty. simpl.
  rewrite IH. reflexivity.
Qed.

Lemma filtered_empty_query_witness :
  filtered Js.asciiToLowerCase [alice; bob] "" = [alice; bob].
Proof. apply (filtered_empty_query Js.asciiToLowerCase); reflexivity. Defined.

(** ** The filter on store rows *)

Lemma rowMatchesQuery_string_phone (toLowerCase : string -> string)
    (q : string) (row : Row.t) :
  hasStringPhone row -> exists keep, rowMatchesQuery toLowerCase q row = Normal keep.
Proof.
  intros [phone Hphone]. unfold rowMatchesQuery. rewrite Hphone.
  destruct (nameMatches toLowerCase q row); eauto.
Qed.

Lemma filterRows_sublist (toLowerCase : string -> string)
    (rows kept : list Row.t) (q : string) :
  filterRows toLowerCase rows q = Normal kept -> kept `sublist_of` rows.
Proof.
  revert kept; induction rows as [|row rows IH]; simpl; intros kept H.
  - injection H as <-. constructor.
  - destruct (rowMatchesQuery toLowerCase q row) as [keep|]; [|discriminate].
    destruct (filterRows toLowerCase rows q) as [kept'|]; [|discriminate].
    injection H as <-.
    destruct keep; [apply sublist_skip | apply sublist_cons]; apply IH; reflexivity.
Qed.

(** X21. On rows that all carry a phone, the row filter computes what the
    typed filter computes. *)
Lemma filterRows_ofCustomer (toLowerCase : string -> string)
    (L : list Customer.t) (q : string) :
  filterRows toLowerCase (List.map Row.ofCustomer L) q
  = Normal (List.map Row.ofCustomer (filtered toLowerCase L q)).
Proof.
  unfold filtered. induction L as [|c L IH]; simpl; [reflexivity|].
  rewrite IH. unfold rowMatchesQuery, nameMatches, matchesQuery. simpl.
  destruct (Js.includes (toLowerCase (Customer.name c)) (toLowerCase q)); simpl;
    [reflexivity|].
  destruct (Js.includes (Customer.phone c) q); reflexivity.
Qed.

Example filterRows_throws_on_missing_phone :
  filterRows Js.asciiToLowerCase [Row.ofCustomer alice; carol; Row.ofCustomer bob] "ali"
  = Thrown "TypeError: Cannot read properties of null (reading 'includes')".
Proof. reflexivity. Qed.

Example filterRows_name_match_skips_phone :
  filterRows Js.asciiToLowerCase [Row.ofCustomer alice; carol] "car" = Normal [carol].
Proof. reflexivity. Qed.

(** C10. On a list in which every row carries a string phone (possibly
    empty) the filter completes normally, for every query, and returns a
    subsequence of the list.  The phone test is evaluated for every row
    whose name does not match: a single such row without a string phone
    makes the whole filter throw. *)
Theorem filterRows_total (toLowerCase : string -> string)
    (rows : list Row.t) (q : string) :
  (Forall hasStringPhone rows ->
   exists kept, filterRows toLowerCase rows q = Normal kept /\ kept `sublist_of` rows)
  /\ (forall row, In row rows -> nameMatches toLowerCase q row = false ->
                  Row.phone row = None ->
                  exists e, filterRows toLowerCase rows q = Thrown e).
Proof.
  split.
  - intros Hall.
    assert (exists kept, filterRows toLowerCase rows q = Normal kept) as [kept Hk].
    { induction Hall as [|row rows Hrow _ IH]; simpl; [eauto|].
      destruct (rowMatchesQuery_string_phone toLowerCase q row Hrow) as [keep ->].
      destruct IH as [kept ->]. eauto. }
    exists kept. split; [exact Hk | eapply filterRows_sublist, Hk].
  - induction rows as [|r rows IH]; simpl; intros row Hin Hname Hphone; [contradiction|].
    destruct Hin as [-> | Hin].
    + unfold rowMatchesQuery. rewrite Hname, Hphone. eauto.
    + destruct (rowMatchesQuery toLowerCase q r); [|eauto].
      destruct (IH row Hin Hname Hphone) as [e ->]. eauto.
Qed.

Lemma filterRows_total_witness :
  (exists kept,
      filterRows Js.asciiToLowerCase [Row.ofCustomer alice; Row.ofCustomer bob] "555-22"
      = Normal kept
      /\ kept `sublist_of` [Row.ofCustomer alice; Row.ofCustomer bob])
  /\ (exists e,
         filterRows Js.asciiToLowerCase [Row.ofCustomer alice; carol] "ali" = Thrown e).
Proof.
  split.
  - apply (proj1 (filterRows_total Js.asciiToLowerCase
                    [Row.ofCustomer alice; Row.ofCustomer bob] "555-22")).
    repeat constructor; eexists; reflexivity.
  - apply (proj2 (filterRows_total Js.asciiToLowerCase
                    [Row.ofCustomer alice; carol] "ali") carol).
    + simpl. right. left. reflexivity.
    + reflexivity.
    + reflexivity.
Defined.

(** ** The handlers *)

Lemma failure_None (p : Awaited Response.t) :
  failure p = None -> exists data, p = Resolved (Response.mk data None).
Proof.
  destruct p as [[data [e|]]|e]; simpl; intros H; try discriminate. eauto.
Qed.

Lemma storeCalls_app (l1 l2 : list Event) :
  storeCalls (l1 ++ l2) = storeCalls l1 ++ storeCalls l2.
Proof. apply omap_app. Qed.

Lemma toasts_app (l1 l2 : list Event) :
  toasts (l1 ++ l2) = toasts l1 ++ toasts l2.
Proof. apply omap_app. Qed.

(** What [fetchCustomers] does when the query fails, from any point of
    a handler: one error toast, one console line, [loading] cleared,
    and nothing else touched. *)
Lemma fetchCustomers_failed (supabase : StoreCall -> Awaited Response.t)
    (r : Run) (e : JsError) :
  failure (supabase Select) = Some e ->
  fetchCustomers supabase r
  = (Normal tt,
     {| st := {| customers := customers (st r);
                 filteredCustomers := filteredCustomers (st r);
                 loading := false;
                 searchQuery := searchQuery (st r);
                 editingCustomer := editingCustomer (st r);
                 formData := formData (st r) |};
        customersReplaced := customersReplaced r;
        log := log r ++ [Store Select; Toast Error "Error fetching customers";
                         ConsoleError "Error:" e] |}).
Proof.
  intros H. unfold_run. simpl.
  case_response (supabase Select); simpl in *; try discriminate;
    injection H as ->; rewrite <- !app_assoc, !orb_false_r; reflexivity.
Qed.

(** What it does when the query succeeds. *)
Lemma fetchCustomers_succeeded (supabase : StoreCall -> Awaited Response.t)
    (r : Run) (data : option (list Customer.t)) :
  supabase Select = Resolved (Response.mk data None) ->
  fetchCustomers supabase r
  = (Normal tt,
     {| st := {| customers := default [] data;
                 filteredCustomers := default [] data;
                 loading := false;
                 searchQuery := searchQuery (st r);
                 editingCustomer := editingCustomer (st r);
                 formData := formData (st r) |};
        customersReplaced := true;
        log := log r ++ [Store Select] |}).
Proof.
  intros H. unfold_run. simpl. rewrite H. simpl.
  rewrite !orb_false_r, orb_true_r. reflexivity.
Qed.

(** In both cases the log grows by exactly one [Select], and the form
    and the editing target stay. *)
Lemma fetchCustomers_frame (supabase : StoreCall -> Awaited Response.t) (r : Run) :
  let r' := snd (fetchCustomers supabase r) in
  fst (fetchCustomers supabase r) = Normal tt
  /\ storeCalls (log r') = storeCalls (log r) ++ [Select]
  /\ formData (st r') = formData (st r)
  /\ editingCustomer (st r') = editingCustomer (st r)
  /\ searchQuery (st r') = searchQuery (st r)
  /\ loading (st r') = false.
Proof.
  destruct (failure (supabase Select)) as [e|] eqn:H.
  - rewrite (fetchCustomers_failed supabase r e H). simpl.
    rewrite storeCalls_app. repeat split; reflexivity.
  - destruct (failure_None _ H) as [data Hd].
    rewrite (fetchCustomers_succeeded supabase r data Hd). simpl.
    rewrite storeCalls_app. repeat split; reflexivity.
Qed.

(** C8. From every state, and at every point of a handler, a fetch that
    fails (a response carrying an error, or a rejected request) shows
    exactly one notification, the error toast of the fetch; the customer
    list and the filtered view are left as they were, and the loading
    flag is cleared.  The same holds for the turn as a whole, after the
    render that follows. *)
Theorem fetchCustomers_failure (toLowerCase : string -> string)
    (supabase : StoreCall -> Awaited Response.t) (e : JsError) :
  failure (supabase Select) = Some e ->
  (forall r : Run,
      let r' := snd (fetchCustomers supabase r) in
      fst (fetchCustomers supabase r) = Normal tt
      /\ toasts (log r') = toasts (log r) ++ [(Error, "Error fetching customers")]
      /\ customers (st r') = customers (st r)
      /\ filteredCustomers (st r') = filteredCustomers (st r)
      /\ loading (st r') = false)
  /\ (forall s : AppState,
         let r' := dispatch toLowerCase (fun _ => fetchCustomers supabase) s in
         toasts (log r') = [(Error, "Error fetching customers")]
         /\ customers (st r') = customers s
         /\ filteredCustomers (st r') = filteredCustomers s
         /\ loading (st r') = false).
Proof.
  intros H. split.
  - intros r. rewrite (fetchCustomers_failed supabase r e H). simpl.
    rewrite toasts_app. repeat split; reflexivity.
  - intros s. unfold dispatch, commit, dependenciesChanged.
    rewrite (fetchCustomers_failed supabase (start s) e H). simpl.
    rewrite String.eqb_refl. simpl. repeat split; reflexivity.
Qed.

Lemma fetchCustomers_failure_witness :
  let r' := dispatch Js.asciiToLowerCase (fun _ => fetchCustomers offlineStore) editingAlice in
  toasts (log r') = [(Error, "Error fetching customers")]
  /\ customers (st r') = [alice; bob]
  /\ filteredCustomers (st r') = [alice]
  /\ loading (st r') = false.
Proof.
  apply (proj2 (fetchCustomers_failure Js.asciiToLowerCase offlineStore
                  "TypeError: Failed to fetch" eq_refl) editingAlice).
Defined.

(** C5. An edit request for a record [R] makes [R] the editing target
    and fills the four form fields with the values [R] holds; nothing
    else changes and nothing is emitted. *)
Theorem handleEdit_populates_form (toLowerCase : string -> string)
    (s : AppState) (R : Customer.t) :
  dispatch toLowerCase (fun _ => handleEdit R) s
  = {| st := {| customers := customers s;
                filteredCustomers := filteredCustomers s;
                loading := loading s;
                searchQuery := searchQuery s;
                editingCustomer := Some R;
                formData := {| FormData.name := Customer.name R;
                               FormData.shirt := Customer.shirt R;
                               FormData.pants := Customer.pants R;
                               FormData.phone := Customer.phone R |} |};
       customersReplaced := false;
       log := [] |}.
Proof.
  unfold_run. simpl. rewrite String.eqb_refl. reflexivity.
Qed.

(** C6. When the user declines the prompt of a delete request, the
    handler returns at once: no query goes to the store, no toast is
    shown (the prompt is the only event), and every state variable keeps
    its value. *)
Theorem handleDelete_declined (toLowerCase : string -> string)
    (supabase : StoreCall -> Awaited Response.t) (confirm : string -> bool)
    (id : string) (s : AppState) :
  confirm "Are you sure you want to delete this customer?" = false ->
  let r := dispatch toLowerCase (fun _ => handleDelete supabase confirm id) s in
  st r = s
  /\ log r = [Confirm "Are you sure you want to delete this customer?"]
  /\ storeCalls (log r) = []
  /\ toasts (log r) = [].
Proof.
  intros H. unfold_run. simpl. rewrite H. simpl. rewrite String.eqb_refl. simpl.
  destruct s; repeat split; reflexivity.
Qed.

Lemma handleDelete_declined_witness :
  let r := dispatch Js.asciiToLowerCase
             (fun _ => handleDelete workingStore decline "1") editingAlice in
  st r = editingAlice
  /\ log r = [Confirm "Are you sure you want to delete this customer?"]
  /\ storeCalls (log r) = []
  /\ toasts (log r) = [].
Proof.
  apply (handleDelete_declined Js.asciiToLowerCase workingStore decline "1" editingAlice).
  reflexivity.
Defined.

(** The queries of a submission, read off its log: the mutation, then a
    [Select] if the mutation succeeded. *)
Lemma handleSubmit_storeCalls (toLowerCase : string -> string)
    (supabase : StoreCall -> Awaited Response.t) (s : AppState) :
  let mutation :=
    match editingCustomer s with
    | Some editing => Update (formData s) (Customer.id editing)
    | None => Insert [formData s]
    end in
  storeCalls (log (dispatch toLowerCase (handleSubmit supabase) s))
  = mutation :: match failure (supabase mutation) with
                | Some _ => []
                | None => [Select]
                end.
Proof.
  unfold_run. simpl.
  destruct (editingCustomer s) as [editing|]; simpl.
  - case_response (supabase (Update (formData s) (Customer.id editing))); simpl;
      rewrite ?String.eqb_refl; try reflexivity.
    case_response (supabase Select); simpl; rewrite ?String.eqb_refl; reflexivity.
  - case_response (supabase (Insert [formData s])); simpl;
      rewrite ?String.eqb_refl; try reflexivity.
    case_response (supabase Select); simpl; rewrite ?String.eqb_refl; reflexivity.
Qed.

(** C4. A submission while a record [R] is being edited issues an update
    with the id of [R] and the form fields of the render, and never an
    insert; a submission with no editing target issues an insert of the
    form fields, and never an update.  In both modes the mutation is the
    first query of the turn. *)
Theorem handleSubmit_dispatches_by_mode (toLowerCase : string -> string)
    (supabase : StoreCall -> Awaited Response.t) (s : AppState) :
  let calls := storeCalls (log (dispatch toLowerCase (handleSubmit supabase) s)) in
  (forall R, editingCustomer s = Some R ->
             head calls = Some (Update (formData s) (Customer.id R))
             /\ Forall (fun c => isInsert c = false) calls
             /\ length (List.filter isUpdate calls) = 1)
  /\ (editingCustomer s = None ->
      head calls = Some (Insert [formData s])
      /\ Forall (fun c => isUpdate c = false) calls
      /\ length (List.filter isInsert calls) = 1).
Proof.
  simpl. rewrite handleSubmit_storeCalls. split.
  - intros R ->.
    destruct (failure (supabase (Update (formData s) (Customer.id R))));
      simpl; repeat split; repeat constructor.
  - intros ->.
    destruct (failure (supabase (Insert [formData s])));
      simpl; repeat split; repeat constructor.
Qed.

Lemma handleSubmit_dispatches_by_mode_witness :
  (let calls := storeCalls (log (dispatch Js.asciiToLowerCase
                                   (handleSubmit workingStore) editingAlice)) in
   head calls = Some (Update (formData editingAlice) "1")
   /\ Forall (fun c => isInsert c = false) calls
   /\ length (List.filter isUpdate calls) = 1)
  /\ (let calls := storeCalls (log (dispatch Js.asciiToLowerCase
                                      (handleSubmit workingStore) creatingDave)) in
      head calls = Some (Insert [formData creatingDave])
      /\ Forall (fun c => isUpdate c = false) calls
      /\ length (List.filter isInsert calls) = 1).
Proof.
  split.
  - apply (proj1 (handleSubmit_dispatches_by_mode Js.asciiToLowerCase
                    workingStore editingAlice) alice).
    reflexivity.
  - apply (proj2 (handleSubmit_dispatches_by_mode Js.asciiToLowerCase
                    workingStore creatingDave)).
    reflexivity.
Defined.

(** C7. With no editing target, a submission whose insert fails (an
    error in the response, or a rejected request) leaves the customer
    list and the filtered view as they were, leaves the form fields as
    the user entered them, and shows exactly one notification, the error
    toast of the create.  No re-fetch is issued; the loading flag ends
    cleared. *)
Theorem handleSubmit_failed_create (toLowerCase : string -> string)
    (supabase : StoreCall -> Awaited Response.t) (s : AppState) (e : JsError) :
  editingCustomer s = None ->
  failure (supabase (Insert [formData s])) = Some e ->
  let r := dispatch toLowerCase (handleSubmit supabase) s in
  customers (st r) = customers s
  /\ filteredCustomers (st r) = filteredCustomers s
  /\ formData (st r) = formData s
  /\ editingCustomer (st r) = None
  /\ toasts (log r) = [(Error, "Error adding customer")]
  /\ storeCalls (log r) = [Insert [formData s]]
  /\ loading (st r) = false.
Proof.
  intros Hmode Hfail. unfold_run. simpl. rewrite Hmode. simpl.
  case_response (supabase (Insert [formData s])); simpl in *; try discriminate;
    rewrite String.eqb_refl; simpl; rewrite ?Hmode; repeat split; reflexivity.
Qed.

Lemma handleSubmit_failed_create_witness :
  let r := dispatch Js.asciiToLowerCase (handleSubmit failingStore) creatingDave in
  customers (st r) = [alice; bob]
  /\ filteredCustomers (st r) = [alice; bob]
  /\ formData (st r) = formData creatingDave
  /\ editingCustomer (st r) = None
  /\ toasts (log r) = [(Error, "Error adding customer")]
  /\ storeCalls (log r) = [Insert [formData creatingDave]]
  /\ loading (st r) = false.
Proof.
  apply (handleSubmit_failed_create Js.asciiToLowerCase failingStore creatingDave
           "permission denied"); reflexivity.
Defined.

(** The state and the queries after a delete that was confirmed and
    succeeded. *)
Lemma handleDelete_succeeded (toLowerCase : string -> string)
    (supabase : StoreCall -> Awaited Response.t) (confirm : string -> bool)
    (id : string) (s : AppState) :
  confirm "Are you sure you want to delete this customer?" = true ->
  failure (supabase (Delete id)) = None ->
  let r := dispatch toLowerCase (fun _ => handleDelete supabase confirm id) s in
  formData (st r) = formData s
  /\ editingCustomer (st r) = editingCustomer s
  /\ storeCalls (log r) = [Delete id; Select].
Proof.
  intros Hyes Hok. destruct (failure_None _ Hok) as [data Hd].
  unfold_run. simpl. rewrite Hyes. simpl. rewrite Hd. simpl.
  case_response (supabase Select); simpl; rewrite ?String.eqb_refl; simpl;
    repeat split; reflexivity.
Qed.

(** C9. A delete that was confirmed and succeeded leaves the form
    fields and the editing target as they were, whatever record was
    deleted: if a record was being edited, it still is, with the same
    form contents, also when it is the record just deleted. *)
Theorem handleDelete_keeps_form (toLowerCase : string -> string)
    (supabase : StoreCall -> Awaited Response.t) (confirm : string -> bool)
    (id : string) (s : AppState) :
  confirm "Are you sure you want to delete this customer?" = true ->
  failure (supabase (Delete id)) = None ->
  let r := dispatch toLowerCase (fun _ => handleDelete supabase confirm id) s in
  formData (st r) = formData s
  /\ editingCustomer (st r) = editingCustomer s
  /\ (forall R, editingCustomer s = Some R -> id = Customer.id R ->
                editingCustomer (st r) = Some R).
Proof.
  intros Hyes Hok.
  destruct (handleDelete_succeeded toLowerCase supabase confirm id s Hyes Hok)
    as (Hform & Hediting & _).
  simpl. repeat split; [exact Hform | exact Hediting |].
  intros R HR _. rewrite <- HR. exact Hediting.
Qed.

Lemma handleDelete_keeps_form_witness :
  let r := dispatch Js.asciiToLowerCase
             (fun _ => handleDelete workingStore accept "1") editingAlice in
  formData (st r) = formData editingAlice
  /\ editingCustomer (st r) = Some alice
  /\ (forall R, Some alice = Some R -> "1" = Customer.id R ->
                editingCustomer (st r) = Some R).
Proof.
  apply (handleDelete_keeps_form Js.asciiToLowerCase workingStore accept "1" editingAlice);
    reflexivity.
Defined.

(** The state and the queries after a submission whose mutation
    succeeded. *)
Lemma handleSubmit_succeeded (toLowerCase : string -> string)
    (supabase : StoreCall -> Awaited Response.t) (s : AppState) :
  let mutation :=
    match editingCustomer s with
    | Some editing => Update (formData s) (Customer.id editing)
    | None => Insert [formData s]
    end in
  failure (supabase mutation) = None ->
  let r := dispatch toLowerCase (handleSubmit supabase) s in
  formData (st r) = FormData.empty
  /\ editingCustomer (st r) = None
  /\ fetches (log r) = 1.
Proof.
  simpl. intros Hok. unfold fetches. rewrite handleSubmit_storeCalls, Hok.
  destruct (failure_None _ Hok) as [data Hd]. clear Hok.
  unfold_run. simpl.
  destruct (editingCustomer s) as [editing|]; simpl; rewrite Hd; simpl;
    (case_response (supabase Select); simpl; rewrite ?String.eqb_refl; simpl;
     repeat split; reflexivity).
Qed.

(** C1, as the code has it.  A create or a modify that succeeded clears
    the four form fields, leaves editing mode, and issues exactly one
    re-fetch.  A delete that succeeded issues exactly one re-fetch, and
    leaves the form fields and the editing target as they were. *)
Theorem successful_mutation (toLowerCase : string -> string)
    (supabase : StoreCall -> Awaited Response.t) (confirm : string -> bool)
    (s : AppState) :
  (editingCustomer s = None ->
   failure (supabase (Insert [formData s])) = None ->
   let r := dispatch toLowerCase (handleSubmit supabase) s in
   formData (st r) = FormData.empty
   /\ editingCustomer (st r) = None
   /\ fetches (log r) = 1)
  /\ (forall R, editingCustomer s = Some R ->
      failure (supabase (Update (formData s) (Customer.id R))) = None ->
      let r := dispatch toLowerCase (handleSubmit supabase) s in
      formData (st r) = FormData.empty
      /\ editingCustomer (st r) = None
      /\ fetches (log r) = 1)
  /\ (forall id,
      confirm "Are you sure you want to delete this customer?" = true ->
      failure (supabase (Delete id)) = None ->
      let r := dispatch toLowerCase (fun _ => handleDelete supabase confirm id) s in
      formData (st r) = formData s
      /\ editingCustomer (st r) = editingCustomer s
      /\ fetches (log r) = 1).
Proof.
  split; [|split].
  - intros Hmode Hok. apply handleSubmit_succeeded. rewrite Hmode. exact Hok.
  - intros R Hmode Hok. apply handleSubmit_succeeded. rewrite Hmode. exact Hok.
  - intros id Hyes Hok.
    destruct (handleDelete_succeeded toLowerCase supabase confirm id s Hyes Hok)
      as (Hform & Hediting & Hcalls).
    simpl. unfold fetches. rewrite Hcalls. repeat split; assumption.
Qed.

Lemma successful_mutation_witness :
  (let r := dispatch Js.asciiToLowerCase (handleSubmit workingStore) creatingDave in
   formData (st r) = FormData.empty
   /\ editingCustomer (st r) = None
   /\ fetches (log r) = 1)
  /\ (let r := dispatch Js.asciiToLowerCase (handleSubmit workingStore) editingAlice in
      formData (st r) = FormData.empty
      /\ editingCustomer (st r) = None
      /\ fetches (log r) = 1)
  /\ (let r := dispatch Js.asciiToLowerCase
                 (fun _ => handleDelete workingStore accept "2") editingAlice in
      formData (st r) = formData editingAlice
      /\ editingCustomer (st r) = Some alice
      /\ fetches (log r) = 1).
Proof.
  split; [|split].
  - apply (proj1 (successful_mutation Js.asciiToLowerCase workingStore accept
                    creatingDave)); reflexivity.
  - apply (proj1 (proj2 (successful_mutation Js.asciiToLowerCase workingStore accept
                           editingAlice)) alice); reflexivity.
  - apply (proj2 (proj2 (successful_mutation Js.asciiToLowerCase workingStore accept
                           editingAlice)) "2"); reflexivity.
Defined.

(** C1 as stated fails for delete: Alice is being edited, her row is
    deleted, the user confirms and the store succeeds; the form still
    holds the edited values and Alice is still the editing target. *)
Lemma successful_delete_keeps_editing :
  let r := dispatch Js.asciiToLowerCase
             (fun _ => handleDelete workingStore accept "1") editingAlice in
  accept "Are you sure you want to delete this customer?" = true
  /\ failure (workingStore (Delete "1")) = None
  /\ ~ (formData (st r) = FormData.empty
        /\ editingCustomer (st r) = None
        /\ fetches (log r) = 1).
Proof.
  simpl. repeat split. intros [Hform _]. discriminate Hform.
Qed.

(** ** The filtered view follows the list and the query *)

(** After a fetch that succeeded, the render that follows shows the new
    list filtered by the query in the search box. *)
Lemma fetchCustomers_success_refilters (toLowerCase : string -> string)
    (supabase : StoreCall -> Awaited Response.t) (s : AppState)
    (data : option (list Customer.t)) :
  supabase Select = Resolved (Response.mk data None) ->
  let r := dispatch toLowerCase (fun _ => fetchCustomers supabase) s in
  customers (st r) = default [] data
  /\ filteredCustomers (st r) = filtered toLowerCase (default [] data) (searchQuery s)
  /\ loading (st r) = false
  /\ toasts (log r) = [].
Proof.
  intros H. unfold dispatch, commit, dependenciesChanged.
  rewrite (fetchCustomers_succeeded supabase (start s) data H). simpl.
  repeat split; reflexivity.
Qed.

(** Typing in the search box filters the list in hand by the new query. *)
Lemma handleSearchChange_refilters (toLowerCase : string -> string)
    (s : AppState) (value : string) :
  let r := dispatch toLowerCase (fun _ => handleSearchChange value) s in
  searchQuery (st r) = value
  /\ customers (st r) = customers s
  /\ filteredCustomers (st r)
     = if String.eqb (searchQuery s) value then filteredCustomers s
       else filtered toLowerCase (customers s) value.
Proof.
  unfold_run. simpl. destruct (String.eqb (searchQuery s) value); simpl;
    repeat split; reflexivity.
Qed.

(** Cancel leaves editing mode and empties the form. *)
Lemma handleCancel_resets (toLowerCase : string -> string) (s : AppState) :
  let r := dispatch toLowerCase (fun _ => handleCancel) s in
  editingCustomer (st r) = None
  /\ formData (st r) = FormData.empty
  /\ log r = [].
Proof.
  unfold_run. simpl. rewrite String.eqb_refl. simpl. repeat split; reflexivity.
Qed.

Example mount_loads_the_list :
  st (dispatch Js.asciiToLowerCase (fun _ => fetchCustomers workingStore) initialState)
  = {| customers := [bob]; filteredCustomers := [bob]; loading := false;
       searchQuery := ""; editingCustomer := None; formData := FormData.empty |}.
Proof. reflexivity. Qed.

Example update_then_refetch :
  log (dispatch Js.asciiToLowerCase (handleSubmit workingStore) editingAlice)
  = [PreventDefault;
     Store (Update (formData editingAlice) "1");
     Toast Success "Customer updated successfully";
     Store Select].
Proof. reflexivity. Qed.

Example failed_delete_reports_once :
  toasts (log (dispatch Js.asciiToLowerCase
                 (fun _ => handleDelete failingStore accept "1") editingAlice))
  = [(Error, "Error deleting customer")].
Proof. reflexivity. Qed.

(** * Further properties of the code *)

(** ** Substrings *)

Lemma append_empty_r (s : string) : s +:+ "" = s.
Proof. induction s as [|a s IH]; [reflexivity | exact (f_equal (String a) IH)]. Qed.


Lemma Substring_refl (s : string) : Js.Substring s s.
Proof. exists "", "". rewrite append_empty_r. reflexivity. Qed.



Lemma filter_filter_implied {A : Type} (f g : A -> bool) (l : list A) :
  (forall x, g x = true -> f x = true) ->
  List.filter g (List.filter f l) = List.filter g l.
Proof.
  intros Himp. induction l as [|x l IH]; simpl; [reflexivity|].
  destruct (f x) eqn:Hf; simpl.
  - rewrite IH. reflexivity.
  - destruct (g x) eqn:Hg; [|exact IH].
    rewrite (Himp x Hg) in Hf. discriminate.
Qed.

(** ** More on the filter *)

(** X1. Searching for the full name of a customer of the list, or for
    the full phone, always retains that customer. *)
Theorem filtered_finds_by_full_field (toLowerCase : string -> string)
    (L : list Customer.t) (c : Customer.t) :
  In c L ->
  In c (filtered toLowerCase L (Customer.name c))
  /\ In c (filtered toLowerCase L (Customer.phone c)).
Proof.
  intros Hin. unfold filtered. rewrite !List.filter_In, !matchesQuery_spec.
  split; (split; [exact Hin|]).
  - left. apply Substring_refl.
  - right. apply Substring_refl.
Qed.

Lemma filtered_finds_by_full_field_witness :
  In bob (filtered Js.asciiToLowerCase [alice; bob] "Bob")
  /\ In bob (filtered Js.asciiToLowerCase [alice; bob] "555-2222").
Proof.
  apply (filtered_finds_by_full_field Js.asciiToLowerCase [alice; bob] bob).
  simpl. right. left. reflexivity.
Defined.

(** X2. Filtering is idempotent: filtering the filtered view again by
    the same query changes nothing. *)
Theorem filtered_idempotent (toLowerCase : string -> string)
    (L : list Customer.t) (q : string) :
  filtered toLowerCase (filtered toLowerCase L q) q = filtered toLowerCase L q.
Proof.
  unfold filtered. apply filter_filter_implied. intros c Hc. exact Hc.
Qed.



(** ** More on the filter over store rows *)

(** X4. The filter over store rows completes normally exactly when every
    row whose name does not match carries a string phone. *)
Theorem filterRows_normal_iff (toLowerCase : string -> string)
    (rows : list Row.t) (q : string) :
  (exists kept, filterRows toLowerCase rows q = Normal kept)
  <-> Forall (fun row => nameMatches toLowerCase q row = true \/ hasStringPhone row) rows.
Proof.
  induction rows as [|row rows IH]; simpl.
  - split; [constructor | eauto].
  - rewrite Forall_cons, <- IH. unfold rowMatchesQuery, hasStringPhone.
    destruct (nameMatches toLowerCase q row); [|destruct (Row.phone row) as [phone|]].
    + destruct (filterRows toLowerCase rows q) as [kept|e].
      * split; eauto.
      * split; [intros [k Hk]; discriminate | intros [_ H]; exact H].
    + destruct (filterRows toLowerCase rows q) as [kept|e].
      * split; eauto.
      * split; [intros [k Hk]; discriminate | intros [_ H]; exact H].
    + split; [intros [k Hk]; discriminate|].
      intros [[H | [p Hp]] _]; discriminate.
Qed.

(** X5. With the empty query the filter over store rows returns every
    row, also rows without a phone: the name test succeeds first and the
    phone is never read. *)
Theorem filterRows_empty_query (toLowerCase : string -> string)
    (toLowerCase_empty : toLowerCase "" = "") (rows : list Row.t) :
  filterRows toLowerCase rows "" = Normal rows.
Proof.
  induction rows as [|row rows IH]; simpl; [reflexivity|].
  unfold rowMatchesQuery, nameMatches.
  rewrite toLowerCase_empty, includes_empty, IH. reflexivity.
Qed.

Lemma filterRows_empty_query_witness :
  filterRows Js.asciiToLowerCase [Row.ofCustomer alice; carol] ""
  = Normal [Row.ofCustomer alice; carol].
Proof. apply (filterRows_empty_query Js.asciiToLowerCase); reflexivity. Defined.

(** ** More on the handlers *)

(** The three ways a submission can end, with the whole state and the
    whole log. *)
Lemma handleSubmit_mutation_failed (toLowerCase : string -> string)
    (supabase : StoreCall -> Awaited Response.t) (s : AppState) (e : JsError) :
  failure (supabase (submitCall s)) = Some e ->
  dispatch toLowerCase (handleSubmit supabase) s
  = {| st := {| customers := customers s;
                filteredCustomers := filteredCustomers s;
                loading := false;
                searchQuery := searchQuery s;
                editingCustomer := editingCustomer s;
                formData := formData s |};
       customersReplaced := false;
       log := [PreventDefault; Store (submitCall s);
               Toast Error match editingCustomer s with
                           | Some _ => "Error updating customer"
                           | None => "Error adding customer"
                           end;
               ConsoleError "Error:" e] |}.
Proof.
  unfold submitCall. intros H. unfold_run. simpl.
  destruct (editingCustomer s) as [editing|]; simpl.
  - case_response (supabase (Update (formData s) (Customer.id editing)));
      simpl in *; try discriminate; injection H as ->;
      rewrite String.eqb_refl; reflexivity.
  - case_response (supabase (Insert [formData s]));
      simpl in *; try discriminate; injection H as ->;
      rewrite String.eqb_refl; reflexivity.
Qed.

Lemma handleSubmit_refetch_failed (toLowerCase : string -> string)
    (supabase : StoreCall -> Awaited Response.t) (s : AppState) (e : JsError) :
  failure (supabase (submitCall s)) = None ->
  failure (supabase Select) = Some e ->
  dispatch toLowerCase (handleSubmit supabase) s
  = {| st := {| customers := customers s;
                filteredCustomers := filteredCustomers s;
                loading := false;
                searchQuery := searchQuery s;
                editingCustomer := None;
                formData := FormData.empty |};
       customersReplaced := false;
       log := [PreventDefault; Store (submitCall s);
               Toast Success match editingCustomer s with
                             | Some _ => "Customer updated successfully"
                             | None => "Customer added successfully"
                             end;
               Store Select;
               Toast Error "Error fetching customers";
               ConsoleError "Error:" e] |}.
Proof.
  unfold submitCall. intros Hok Hfail.
  destruct (failure_None _ Hok) as [data Hd]. clear Hok.
  unfold_run. simpl.
  destruct (editingCustomer s) as [editing|]; simpl; rewrite Hd; simpl;
    (case_response (supabase Select); simpl in *; try discriminate;
     injection Hfail as ->; rewrite String.eqb_refl; reflexivity).
Qed.

Lemma handleSubmit_refetched (toLowerCase : string -> string)
    (supabase : StoreCall -> Awaited Response.t) (s : AppState)
    (data : option (list Customer.t)) :
  failure (supabase (submitCall s)) = None ->
  supabase Select = Resolved (Response.mk data None) ->
  dispatch toLowerCase (handleSubmit supabase) s
  = {| st := {| customers := default [] data;
                filteredCustomers := filtered toLowerCase (default [] data) (searchQuery s);
                loading := false;
                searchQuery := searchQuery s;
                editingCustomer := None;
                formData := FormData.empty |};
       customersReplaced := true;
       log := [PreventDefault; Store (submitCall s);
               Toast Success match editingCustomer s with
                             | Some _ => "Customer updated successfully"
                             | None => "Customer added successfully"
                             end;
               Store Select] |}.
Proof.
  unfold submitCall. intros Hok Hsel.
  destruct (failure_None _ Hok) as [data' Hd]. clear Hok.
  unfold_run. simpl.
  destruct (editingCustomer s) as [editing|]; simpl; rewrite Hd; simpl;
    rewrite Hsel; reflexivity.
Qed.

(** The same for a delete that the user confirmed. *)
Lemma handleDelete_mutation_failed (toLowerCase : string -> string)
    (supabase : StoreCall -> Awaited Response.t) (confirm : string -> bool)
    (id : string) (s : AppState) (e : JsError) :
  confirm "Are you sure you want to delete this customer?" = true ->
  failure (supabase (Delete id)) = Some e ->
  dispatch toLowerCase (fun _ => handleDelete supabase confirm id) s
  = {| st := {| customers := customers s;
                filteredCustomers := filteredCustomers s;
                loading := false;
                searchQuery := searchQuery s;
                editingCustomer := editingCustomer s;
                formData := formData s |};
       customersReplaced := false;
       log := [Confirm "Are you sure you want to delete this customer?";
               Store (Delete id);
               Toast Error "Error deleting customer";
               ConsoleError "Error:" e] |}.
Proof.
  intros Hyes H. unfold_run. simpl. rewrite Hyes. simpl.
  case_response (supabase (Delete id)); simpl in *; try discriminate;
    injection H as ->; rewrite String.eqb_refl; reflexivity.
Qed.

Lemma handleDelete_refetch_failed (toLowerCase : string -> string)
    (supabase : StoreCall -> Awaited Response.t) (confirm : string -> bool)
    (id : string) (s : AppState) (e : JsError) :
  confirm "Are you sure you want to delete this customer?" = true ->
  failure (supabase (Delete id)) = None ->
  failure (supabase Select) = Some e ->
  dispatch toLowerCase (fun _ => handleDelete supabase confirm id) s
  = {| st := {| customers := customers s;
                filteredCustomers := filteredCustomers s;
                loading := false;
                searchQuery := searchQuery s;
                editingCustomer := editingCustomer s;
                formData := formData s |};
       customersReplaced := false;
       log := [Confirm "Are you sure you want to delete this customer?";
               Store (Delete id);
               Toast Success "Customer deleted successfully";
               Store Select;
               Toast Error "Error fetching customers";
               ConsoleError "Error:" e] |}.
Proof.
  intros Hyes Hok Hfail. destruct (failure_None _ Hok) as [data Hd]. clear Hok.
  unfold_run. simpl. rewrite Hyes. simpl. rewrite Hd. simpl.
  case_response (supabase Select); simpl in *; try discriminate;
    injection Hfail as ->; rewrite String.eqb_refl; reflexivity.
Qed.

Lemma handleDelete_refetched (toLowerCase : string -> string)
    (supabase : StoreCall -> Awaited Response.t) (confirm : string -> bool)
    (id : string) (s : AppState) (data : option (list Customer.t)) :
  confirm "Are you sure you want to delete this customer?" = true ->
  failure (supabase (Delete id)) = None ->
  supabase Select = Resolved (Response.mk data None) ->
  dispatch toLowerCase (fun _ => handleDelete supabase confirm id) s
  = {| st := {| customers := default [] data;
                filteredCustomers := filtered toLowerCase (default [] data) (searchQuery s);
                loading := false;
                searchQuery := searchQuery s;
                editingCustomer := editingCustomer s;
                formData := formData s |};
       customersReplaced := true;
       log := [Confirm "Are you sure you want to delete this customer?";
               Store (Delete id);
               Toast Success "Customer deleted successfully";
               Store Select] |}.
Proof.
  intros Hyes Hok Hsel. destruct (failure_None _ Hok) as [data' Hd]. clear Hok.
  unfold_run. simpl. rewrite Hyes. simpl. rewrite Hd. simpl. rewrite Hsel.
  reflexivity.
Qed.

Lemma handleDelete_declined_run (toLowerCase : string -> string)
    (supabase : StoreCall -> Awaited Response.t) (confirm : string -> bool)
    (id : string) (s : AppState) :
  confirm "Are you sure you want to delete this customer?" = false ->
  dispatch toLowerCase (fun _ => handleDelete supabase confirm id) s
  = {| st := s; customersReplaced := false;
       log := [Confirm "Are you sure you want to delete this customer?"] |}.
Proof.
  intros Hno. unfold_run. simpl. rewrite Hno. simpl. rewrite String.eqb_refl.
  reflexivity.
Qed.

(** X6. The three asynchronous handlers catch everything: whatever the
    store answers, and from every point of a turn, [fetchCustomers],
    [handleSubmit] and [handleDelete] complete normally, and the first
    two, and a confirmed delete, end with the loading flag cleared. *)
Theorem async_handlers_settle
    (supabase : StoreCall -> Awaited Response.t) (confirm : string -> bool)
    (render : AppState) (id : string) (r : Run) :
  (fst (fetchCustomers supabase r) = Normal tt
   /\ loading (st (snd (fetchCustomers supabase r))) = false)
  /\ (fst (handleSubmit supabase render r) = Normal tt
      /\ loading (st (snd (handleSubmit supabase render r))) = false)
  /\ (fst (handleDelete supabase confirm id r) = Normal tt
      /\ (confirm "Are you sure you want to delete this customer?" = true ->
          loading (st (snd (handleDelete supabase confirm id r))) = false)).
Proof.
  split; [|split].
  - unfold_run. simpl. case_response (supabase Select); simpl; split; reflexivity.
  - unfold_run. simpl. destruct (editingCustomer render) as [editing|]; simpl.
    + case_response (supabase (Update (formData render) (Customer.id editing)));
        simpl; try (split; reflexivity).
      case_response (supabase Select); simpl; split; reflexivity.
    + case_response (supabase (Insert [formData render]));
        simpl; try (split; reflexivity).
      case_response (supabase Select); simpl; split; reflexivity.
  - unfold_run. simpl.
    destruct (confirm "Are you sure you want to delete this customer?"); simpl;
      [|split; [reflexivity | discriminate]].
    case_response (supabase (Delete id)); simpl; try (split; reflexivity).
    case_response (supabase Select); simpl; split; reflexivity.
Qed.

Lemma async_handlers_settle_witness :
  loading (st (snd (handleDelete offlineStore accept "1" (start initialState)))) = false.
Proof.
  apply (proj2 (proj2 (proj2 (async_handlers_settle offlineStore accept
                                initialState "1" (start initialState))))).
  reflexivity.
Defined.

(** X7. A submission in editing mode whose update fails leaves the list,
    the view, the form and the editing target as they were, shows
    exactly one toast, the error toast of the update, issues no
    re-fetch, and ends with the loading flag cleared. *)
Theorem handleSubmit_failed_update (toLowerCase : string -> string)
    (supabase : StoreCall -> Awaited Response.t) (s : AppState)
    (R : Customer.t) (e : JsError) :
  editingCustomer s = Some R ->
  failure (supabase (Update (formData s) (Customer.id R))) = Some e ->
  let r := dispatch toLowerCase (handleSubmit supabase) s in
  customers (st r) = customers s
  /\ filteredCustomers (st r) = filteredCustomers s
  /\ formData (st r) = formData s
  /\ editingCustomer (st r) = Some R
  /\ toasts (log r) = [(Error, "Error updating customer")]
  /\ storeCalls (log r) = [Update (formData s) (Customer.id R)]
  /\ loading (st r) = false.
Proof.
  intros Hmode Hfail. simpl.
  rewrite (handleSubmit_mutation_failed toLowerCase supabase s e);
    unfold submitCall; rewrite Hmode; [|exact Hfail].
  simpl. repeat split; reflexivity.
Qed.

Lemma handleSubmit_failed_update_witness :
  let r := dispatch Js.asciiToLowerCase (handleSubmit failingStore) editingAlice in
  customers (st r) = [alice; bob]
  /\ filteredCustomers (st r) = [alice]
  /\ formData (st r) = formData editingAlice
  /\ editingCustomer (st r) = Some alice
  /\ toasts (log r) = [(Error, "Error updating customer")]
  /\ storeCalls (log r) = [Update (formData editingAlice) "1"]
  /\ loading (st r) = false.
Proof.
  apply (handleSubmit_failed_update Js.asciiToLowerCase failingStore editingAlice
           alice "permission denied"); reflexivity.
Defined.

(** X8. A confirmed delete whose query fails leaves the list, the view,
    the form, the query and the editing target as they were, shows
    exactly one toast, the error toast of the delete, issues no
    re-fetch, and ends with the loading flag cleared. *)
Theorem handleDelete_failed (toLowerCase : string -> string)
    (supabase : StoreCall -> Awaited Response.t) (confirm : string -> bool)
    (id : string) (s : AppState) (e : JsError) :
  confirm "Are you sure you want to delete this customer?" = true ->
  failure (supabase (Delete id)) = Some e ->
  let r := dispatch toLowerCase (fun _ => handleDelete supabase confirm id) s in
  customers (st r) = customers s
  /\ filteredCustomers (st r) = filteredCustomers s
  /\ searchQuery (st r) = searchQuery s
  /\ formData (st r) = formData s
  /\ editingCustomer (st r) = editingCustomer s
  /\ toasts (log r) = [(Error, "Error deleting customer")]
  /\ storeCalls (log r) = [Delete id]
  /\ loading (st r) = false.
Proof.
  intros Hyes Hfail. simpl.
  rewrite (handleDelete_mutation_failed toLowerCase supabase confirm id s e Hyes Hfail).
  simpl. repeat split; reflexivity.
Qed.

Lemma handleDelete_failed_witness :
  let r := dispatch Js.asciiToLowerCase
             (fun _ => handleDelete offlineStore accept "2") editingAlice in
  customers (st r) = [alice; bob]
  /\ filteredCustomers (st r) = [alice]
  /\ searchQuery (st r) = "ali"
  /\ formData (st r) = formData editingAlice
  /\ editingCustomer (st r) = Some alice
  /\ toasts (log r) = [(Error, "Error deleting customer")]
  /\ storeCalls (log r) = [Delete "2"]
  /\ loading (st r) = false.
Proof.
  apply (handleDelete_failed Js.asciiToLowerCase offlineStore accept "2" editingAlice
           "TypeError: Failed to fetch"); reflexivity.
Defined.

(** X9. The toasts of a submission, for every answer of the store: one
    error toast, worded by mode, when the mutation fails; otherwise one
    success toast, worded by mode, followed by the error toast of the
    fetch when the re-fetch fails, and by nothing when it succeeds. *)
Theorem handleSubmit_toasts (toLowerCase : string -> string)
    (supabase : StoreCall -> Awaited Response.t) (s : AppState) :
  toasts (log (dispatch toLowerCase (handleSubmit supabase) s))
  = match failure (supabase (submitCall s)) with
    | Some _ =>
        [(Error, match editingCustomer s with
                 | Some _ => "Error updating customer"
                 | None => "Error adding customer"
                 end)]
    | None =>
        (Success, match editingCustomer s with
                  | Some _ => "Customer updated successfully"
                  | None => "Customer added successfully"
                  end)
        :: match failure (supabase Select) with
           | Some _ => [(Error, "Error fetching customers")]
           | None => []
           end
    end.
Proof.
  destruct (failure (supabase (submitCall s))) as [e|] eqn:Hm.
  - rewrite (handleSubmit_mutation_failed toLowerCase supabase s e Hm). reflexivity.
  - destruct (failure (supabase Select)) as [e|] eqn:Hs.
    + rewrite (handleSubmit_refetch_failed toLowerCase supabase s e Hm Hs). reflexivity.
    + destruct (failure_None _ Hs) as [data Hd].
      rewrite (handleSubmit_refetched toLowerCase supabase s data Hm Hd). reflexivity.
Qed.

(** X10. The queries and the toasts of a delete request, for every
    answer of the user and of the store: none when the user declines;
    the delete alone with its error toast when it fails; the delete, the
    re-fetch and the success toast when it succeeds, followed by the
    error toast of the fetch when the re-fetch fails.  An insert or an
    update is never issued. *)
Theorem handleDelete_queries_and_toasts (toLowerCase : string -> string)
    (supabase : StoreCall -> Awaited Response.t) (confirm : string -> bool)
    (id : string) (s : AppState) :
  let r := dispatch toLowerCase (fun _ => handleDelete supabase confirm id) s in
  (storeCalls (log r), toasts (log r))
  = if confirm "Are you sure you want to delete this customer?"
    then match failure (supabase (Delete id)) with
         | Some _ => ([Delete id], [(Error, "Error deleting customer")])
         | None =>
             ([Delete id; Select],
              (Success, "Customer deleted successfully")
              :: match failure (supabase Select) with
                 | Some _ => [(Error, "Error fetching customers")]
                 | None => []
                 end)
         end
    else ([], []).
Proof.
  simpl.
  destruct (confirm "Are you sure you want to delete this customer?") eqn:Hc.
  - destruct (failure (supabase (Delete id))) as [e|] eqn:Hm.
    + rewrite (handleDelete_mutation_failed toLowerCase supabase confirm id s e Hc Hm).
      reflexivity.
    + destruct (failure (supabase Select)) as [e|] eqn:Hs.
      * rewrite (handleDelete_refetch_failed toLowerCase supabase confirm id s e Hc Hm Hs).
        reflexivity.
      * destruct (failure_None _ Hs) as [data Hd].
        rewrite (handleDelete_refetched toLowerCase supabase confirm id s data Hc Hm Hd).
        reflexivity.
  - rewrite (handleDelete_declined_run toLowerCase supabase confirm id s Hc).
    reflexivity.
Qed.

(** X11. After a mutation that succeeded (a submission, or a confirmed
    delete), a re-fetch that succeeds replaces the list by the fetched
    rows, or by the empty list when the response carries no data, and
    the table shows the new list filtered by the query in the search
    box, which is kept.  A re-fetch that fails leaves the list and the
    table as they were before the mutation. *)
Theorem mutation_refreshes_table (toLowerCase : string -> string)
    (supabase : StoreCall -> Awaited Response.t) (confirm : string -> bool)
    (id : string) (s : AppState) :
  let submitted := st (dispatch toLowerCase (handleSubmit supabase) s) in
  let deleted := st (dispatch toLowerCase (fun _ => handleDelete supabase confirm id) s) in
  (forall data, supabase Select = Resolved (Response.mk data None) ->
     (failure (supabase (submitCall s)) = None ->
      customers submitted = default [] data
      /\ filteredCustomers submitted
         = filtered toLowerCase (default [] data) (searchQuery s)
      /\ searchQuery submitted = searchQuery s)
     /\ (confirm "Are you sure you want to delete this customer?" = true ->
         failure (supabase (Delete id)) = None ->
         customers deleted = default [] data
         /\ filteredCustomers deleted
            = filtered toLowerCase (default [] data) (searchQuery s)
         /\ searchQuery deleted = searchQuery s))
  /\ (forall e, failure (supabase Select) = Some e ->
        (failure (supabase (submitCall s)) = None ->
         customers submitted = customers s
         /\ filteredCustomers submitted = filteredCustomers s)
        /\ (confirm "Are you sure you want to delete this customer?" = true ->
            failure (supabase (Delete id)) = None ->
            customers deleted = customers s
            /\ filteredCustomers deleted = filteredCustomers s)).
Proof.
  simpl. split.
  - intros data Hd. split.
    + intros Hm. rewrite (handleSubmit_refetched toLowerCase supabase s data Hm Hd).
      simpl. repeat split; reflexivity.
    + intros Hc Hm.
      rewrite (handleDelete_refetched toLowerCase supabase confirm id s data Hc Hm Hd).
      simpl. repeat split; reflexivity.
  - intros e Hs. split.
    + intros Hm. rewrite (handleSubmit_refetch_failed toLowerCase supabase s e Hm Hs).
      simpl. split; reflexivity.
    + intros Hc Hm.
      rewrite (handleDelete_refetch_failed toLowerCase supabase confirm id s e Hc Hm Hs).
      simpl. split; reflexivity.
Qed.

Lemma mutation_refreshes_table_witness :
  (customers (st (dispatch Js.asciiToLowerCase (handleSubmit workingStore) editingAlice))
   = [bob]
   /\ filteredCustomers
        (st (dispatch Js.asciiToLowerCase (handleSubmit workingStore) editingAlice))
      = filtered Js.asciiToLowerCase [bob] "ali"
   /\ searchQuery (st (dispatch Js.asciiToLowerCase (handleSubmit workingStore) editingAlice))
      = "ali")
  /\ (customers (st (dispatch Js.asciiToLowerCase
                       (fun _ => handleDelete staleStore accept "1") editingAlice))
      = [alice; bob]
      /\ filteredCustomers (st (dispatch Js.asciiToLowerCase
                                  (fun _ => handleDelete staleStore accept "1") editingAlice))
         = [alice]).
Proof.
  split.
  - apply (proj1 (proj1 (mutation_refreshes_table Js.asciiToLowerCase workingStore
                           accept "1" editingAlice) (Some [bob]) eq_refl)).
    reflexivity.
  - apply (proj2 (proj2 (mutation_refreshes_table Js.asciiToLowerCase staleStore
                           accept "1" editingAlice)
                    "TypeError: Failed to fetch" eq_refl)); reflexivity.
Defined.

(** ** Sessions *)

Lemma mount_failed (toLowerCase : string -> string)
    (supabase : StoreCall -> Awaited Response.t) (e : JsError) :
  failure (supabase Select) = Some e ->
  mount toLowerCase supabase
  = {| st := {| customers := []; filteredCustomers := []; loading := false;
                searchQuery := ""; editingCustomer := None;
                formData := FormData.empty |};
       customersReplaced := false;
       log := [Store Select; Toast Error "Error fetching customers";
               ConsoleError "Error:" e] |}.
Proof.
  intros H. unfold mount, dispatch, commit, dependenciesChanged.
  unfold mbind, M_bind, filterEffect at 1, setFilteredCustomers, update. simpl.
  rewrite (fetchCustomers_failed supabase _ e H). reflexivity.
Qed.

Lemma mount_succeeded (toLowerCase : string -> string)
    (supabase : StoreCall -> Awaited Response.t) (data : option (list Customer.t)) :
  supabase Select = Resolved (Response.mk data None) ->
  mount toLowerCase supabase
  = {| st := {| customers := default [] data;
                filteredCustomers := filtered toLowerCase (default [] data) "";
                loading := false;
                searchQuery := ""; editingCustomer := None;
                formData := FormData.empty |};
       customersReplaced := true;
       log := [Store Select] |}.
Proof.
  intros H. unfold mount, dispatch, commit, dependenciesChanged.
  unfold mbind, M_bind, filterEffect at 1, setFilteredCustomers, update. simpl.
  rewrite (fetchCustomers_succeeded supabase _ data H). reflexivity.
Qed.

(** Every turn keeps the table consistent with the list and the query,
    and keeps a cleared loading flag cleared. *)
Lemma step_invariant (toLowerCase : string -> string) (s : AppState) (t : Turn) :
  (Consistent toLowerCase s -> Consistent toLowerCase (step toLowerCase s t))
  /\ (loading s = false -> loading (step toLowerCase s t) = false).
Proof.
  unfold Consistent, step.
  destruct t as [a supabase confirm].
  destruct a as [v|v|v|v|v| | |c|id]; cbv [handlerOf action store answer].
  - unfold_run. simpl. destruct (String.eqb (searchQuery s) v) eqn:Hq; simpl.
    + apply String.eqb_eq in Hq. subst v. split; intros H; exact H.
    + split; intros H; [reflexivity | exact H].
  - unfold_run. unfold_inputs. unfold_run. simpl. rewrite String.eqb_refl.
    split; intros H; exact H.
  - unfold_run. unfold_inputs. unfold_run. simpl. rewrite String.eqb_refl.
    split; intros H; exact H.
  - unfold_run. unfold_inputs. unfold_run. simpl. rewrite String.eqb_refl.
    split; intros H; exact H.
  - unfold_run. unfold_inputs. unfold_run. simpl. rewrite String.eqb_refl.
    split; intros H; exact H.
  - unfold_run. simpl. rewrite String.eqb_refl. split; intros H; exact H.
  - destruct (failure (supabase (submitCall s))) as [e|] eqn:Hm.
    + rewrite (handleSubmit_mutation_failed toLowerCase supabase s e Hm).
      simpl. split; intros H; [exact H | reflexivity].
    + destruct (failure (supabase Select)) as [e|] eqn:Hs.
      * rewrite (handleSubmit_refetch_failed toLowerCase supabase s e Hm Hs).
        simpl. split; intros H; [exact H | reflexivity].
      * destruct (failure_None _ Hs) as [data Hd].
        rewrite (handleSubmit_refetched toLowerCase supabase s data Hm Hd).
        simpl. split; reflexivity.
  - unfold_run. simpl. rewrite String.eqb_refl. split; intros H; exact H.
  - destruct (confirm "Are you sure you want to delete this customer?") eqn:Hyes.
    + destruct (failure (supabase (Delete id))) as [e|] eqn:Hm.
      * rewrite (handleDelete_mutation_failed toLowerCase supabase confirm id s e Hyes Hm).
        simpl. split; intros H; [exact H | reflexivity].
      * destruct (failure (supabase Select)) as [e|] eqn:Hs.
        -- rewrite (handleDelete_refetch_failed toLowerCase supabase confirm id s e
                      Hyes Hm Hs).
           simpl. split; intros H; [exact H | reflexivity].
        -- destruct (failure_None _ Hs) as [data Hd].
           rewrite (handleDelete_refetched toLowerCase supabase confirm id s data
                      Hyes Hm Hd).
           simpl. split; reflexivity.
    + rewrite (handleDelete_declined_run toLowerCase supabase confirm id s Hyes).
      simpl. split; intros H; exact H.
Qed.

Lemma turns_invariant (toLowerCase : string -> string) (turns : list Turn) (s : AppState) :
  (Consistent toLowerCase s ->
   Consistent toLowerCase (fold_left (step toLowerCase) turns s))
  /\ (loading s = false -> loading (fold_left (step toLowerCase) turns s) = false).
Proof.
  revert s. induction turns as [|t turns IH]; intros s; simpl.
  - split; intros H; exact H.
  - destruct (IH (step toLowerCase s t)) as [IHc IHl].
    destruct (step_invariant toLowerCase s t) as [Hc Hl].
    split; intros H; [apply IHc, Hc, H | apply IHl, Hl, H].
Qed.

Lemma mount_invariant (toLowerCase : string -> string)
    (supabase : StoreCall -> Awaited Response.t) :
  Consistent toLowerCase (st (mount toLowerCase supabase))
  /\ loading (st (mount toLowerCase supabase)) = false.
Proof.
  unfold Consistent. destruct (failure (supabase Select)) as [e|] eqn:Hs.
  - rewrite (mount_failed toLowerCase supabase e Hs). simpl. split; reflexivity.
  - destruct (failure_None _ Hs) as [data Hd].
    rewrite (mount_succeeded toLowerCase supabase data Hd). simpl. split; reflexivity.
Qed.

Lemma session_invariant (toLowerCase : string -> string)
    (supabase : StoreCall -> Awaited Response.t) (turns : list Turn) :
  Consistent toLowerCase (session toLowerCase supabase turns)
  /\ loading (session toLowerCase supabase turns) = false.
Proof.
  unfold session.
  destruct (mount_invariant toLowerCase supabase) as [Hc Hl].
  destruct (turns_invariant toLowerCase turns (st (mount toLowerCase supabase)))
    as [Tc Tl].
  split; [apply Tc, Hc | apply Tl, Hl].
Qed.

Lemma filter_nil_iff {A : Type} (f : A -> bool) (l : list A) :
  List.filter f l = [] <-> Forall (fun x => f x = false) l.
Proof.
  induction l as [|x l IH]; simpl.
  - split; [constructor | reflexivity].
  - rewrite Forall_cons. destruct (f x); split.
    + discriminate.
    + intros [H _]. discriminate.
    + intros H. split; [reflexivity | apply IH, H].
    + intros [_ H]. apply IH, H.
Qed.

(** X12. After mount and any sequence of intents (search, typing,
    cancel, submit, edit, delete), whatever the store and the user
    answer in each turn, the filtered list the component holds is the
    customer list filtered by the query in the search box, and the
    loading flag is cleared. *)
Theorem session_table_follows_list (toLowerCase : string -> string)
    (supabase : StoreCall -> Awaited Response.t) (turns : list Turn) :
  let s := session toLowerCase supabase turns in
  filteredCustomers s = filtered toLowerCase (customers s) (searchQuery s)
  /\ loading s = false.
Proof. apply session_invariant. Qed.

(** X13. What is rendered after mount and any sequence of intents: the
    table rows are a subsequence of the customer list; the "No customers
    found" row is shown exactly when no customer of the list matches the
    query; the submit button is enabled and shows its label, not the
    spinner. *)
Theorem session_view (toLowerCase : string -> string)
    (supabase : StoreCall -> Awaited Response.t) (turns : list Turn) :
  let s := session toLowerCase supabase turns in
  tableRows (view s) `sublist_of` customers s
  /\ (emptyMessage (view s) = true
      <-> Forall (fun c => ~ Retained toLowerCase (searchQuery s) c) (customers s))
  /\ submitDisabled (view s) = false
  /\ submitContent (view s) <> Spinner.
Proof.
  destruct (session_invariant toLowerCase supabase turns) as [Hc Hl].
  unfold Consistent in Hc. simpl. rewrite Hc, Hl. repeat split.
  - apply filter_sublist.
  - intros H. apply Nat.eqb_eq, length_zero_iff_nil, filter_nil_iff in H.
    eapply Forall_impl; [exact H|]. intros c Hm HR.
    apply matchesQuery_spec in HR. congruence.
  - intros H. apply Nat.eqb_eq, length_zero_iff_nil, filter_nil_iff.
    eapply Forall_impl; [exact H|]. intros c HR.
    destruct (matchesQuery toLowerCase (searchQuery (session toLowerCase supabase turns)) c)
      eqn:Hm; [|reflexivity].
    apply matchesQuery_spec in Hm. contradiction.
  - discriminate.
Qed.

Lemma filter_all {A : Type} (f : A -> bool) (l : list A) :
  (forall x, f x = true) -> List.filter f l = l.
Proof.
  intros H. induction l as [|x l IH]; simpl; [reflexivity|].
  rewrite H, IH. reflexivity.
Qed.

Lemma matchesQuery_empty (toLowerCase : string -> string) (c : Customer.t) :
  toLowerCase "" = "" -> matchesQuery toLowerCase "" c = true.
Proof.
  intros H. unfold matchesQuery. rewrite H, includes_empty. reflexivity.
Qed.

(** X14. Mount.  When the first fetch succeeds, the list is the fetched
    rows (the empty list when the response carries no data), the table
    shows all of them, and no toast is shown; when it fails, the list
    and the table are empty and the one error toast of the fetch is
    shown.  In both cases the loading flag ends cleared, the query is
    empty and the form is the empty create form. *)
Theorem mount_outcome (toLowerCase : string -> string)
    (toLowerCase_empty : toLowerCase "" = "")
    (supabase : StoreCall -> Awaited Response.t) :
  (forall data, supabase Select = Resolved (Response.mk data None) ->
     st (mount toLowerCase supabase)
     = {| customers := default [] data; filteredCustomers := default [] data;
          loading := false; searchQuery := ""; editingCustomer := None;
          formData := FormData.empty |}
     /\ toasts (log (mount toLowerCase supabase)) = [])
  /\ (forall e, failure (supabase Select) = Some e ->
        st (mount toLowerCase supabase)
        = {| customers := []; filteredCustomers := [];
             loading := false; searchQuery := ""; editingCustomer := None;
             formData := FormData.empty |}
        /\ toasts (log (mount toLowerCase supabase))
           = [(Error, "Error fetching customers")]).
Proof.
  split.
  - intros data Hd. rewrite (mount_succeeded toLowerCase supabase data Hd). simpl.
    unfold filtered. rewrite filter_all; [split; reflexivity|].
    intros c. apply matchesQuery_empty, toLowerCase_empty.
  - intros e He. rewrite (mount_failed toLowerCase supabase e He). simpl.
    split; reflexivity.
Qed.

Lemma mount_outcome_witness :
  (st (mount Js.asciiToLowerCase workingStore)
   = {| customers := [bob]; filteredCustomers := [bob];
        loading := false; searchQuery := ""; editingCustomer := None;
        formData := FormData.empty |}
   /\ toasts (log (mount Js.asciiToLowerCase workingStore)) = [])
  /\ (st (mount Js.asciiToLowerCase failingStore)
      = {| customers := []; filteredCustomers := [];
           loading := false; searchQuery := ""; editingCustomer := None;
           formData := FormData.empty |}
      /\ toasts (log (mount Js.asciiToLowerCase failingStore))
         = [(Error, "Error fetching customers")]).
Proof.
  split.
  - apply (proj1 (mount_outcome Js.asciiToLowerCase eq_refl workingStore)
             (Some [bob]) eq_refl).
  - apply (proj2 (mount_outcome Js.asciiToLowerCase eq_refl failingStore)
             "permission denied" eq_refl).
Defined.

(** X15. Typing in the search box is local: no query goes to the store,
    nothing is shown or logged, and the list, the form, the editing
    target and the loading flag keep their values.  The query becomes
    the typed value, and the table becomes the list filtered by it
    (when the typed value equals the query in hand, the effect does not
    run and the table is left as it is). *)
Theorem handleSearchChange_is_local (toLowerCase : string -> string)
    (s : AppState) (value : string) :
  dispatch toLowerCase (fun _ => handleSearchChange value) s
  = {| st := {| customers := customers s;
                filteredCustomers :=
                  if String.eqb (searchQuery s) value then filteredCustomers s
                  else filtered toLowerCase (customers s) value;
                loading := loading s;
                searchQuery := value;
                editingCustomer := editingCustomer s;
                formData := formData s |};
       customersReplaced := false;
       log := [] |}.
Proof.
  unfold_run. simpl. destruct (String.eqb (searchQuery s) value); reflexivity.
Qed.

(** X16. Search round trip.  From a state whose table is consistent with
    its list and query, typing any query and then clearing the search
    box shows the whole list again, in its order; the list itself is
    untouched. *)
Theorem search_then_clear_shows_all (toLowerCase : string -> string)
    (toLowerCase_empty : toLowerCase "" = "") (s : AppState) (q : string) :
  Consistent toLowerCase s ->
  let s1 := st (dispatch toLowerCase (fun _ => handleSearchChange q) s) in
  let s2 := st (dispatch toLowerCase (fun _ => handleSearchChange "") s1) in
  filteredCustomers s2 = customers s
  /\ customers s2 = customers s
  /\ searchQuery s2 = "".
Proof.
  unfold Consistent. intros Hc.
  assert (forall L, filtered toLowerCase L "" = L) as Hall.
  { intros L. unfold filtered. apply filter_all. intros c.
    apply matchesQuery_empty, toLowerCase_empty. }
  unfold_run. simpl.
  destruct (String.eqb (searchQuery s) q) eqn:H1; simpl;
    destruct (String.eqb q "") eqn:H2; simpl; repeat split;
    try apply Hall.
  - apply String.eqb_eq in H1, H2. subst. rewrite Hc, H2. apply Hall.
  - apply String.eqb_eq in H2. subst. apply Hall.
Qed.

Lemma search_then_clear_shows_all_witness :
  let s1 := st (dispatch Js.asciiToLowerCase (fun _ => handleSearchChange "bo")
                  editingAlice) in
  let s2 := st (dispatch Js.asciiToLowerCase (fun _ => handleSearchChange "") s1) in
  filteredCustomers s2 = [alice; bob]
  /\ customers s2 = [alice; bob]
  /\ searchQuery s2 = "".
Proof.
  apply (search_then_clear_shows_all Js.asciiToLowerCase eq_refl editingAlice "bo").
  reflexivity.
Defined.

(** ** How the handlers compose *)

(** X17. Edit, then submit without typing: the update carries the id of
    the record and the four values the record holds. *)
Theorem edit_then_submit_sends_record (toLowerCase : string -> string)
    (supabase : StoreCall -> Awaited Response.t) (s : AppState) (R : Customer.t) :
  let s1 := st (dispatch toLowerCase (fun _ => handleEdit R) s) in
  head (storeCalls (log (dispatch toLowerCase (handleSubmit supabase) s1)))
  = Some (Update {| FormData.name := Customer.name R;
                    FormData.shirt := Customer.shirt R;
                    FormData.pants := Customer.pants R;
                    FormData.phone := Customer.phone R |}
                 (Customer.id R)).
Proof.
  simpl. rewrite handleSubmit_storeCalls.
  unfold dispatch at 1 2 3, commit, dependenciesChanged, handleEdit.
  unfold_run. simpl. rewrite String.eqb_refl. reflexivity.
Qed.

(** X18. Edit, then cancel: the component is back in create mode with an
    empty form, whatever the form held before the edit; the list, the
    table, the query and the loading flag are as before the edit, and
    nothing was sent or shown. *)
Theorem edit_then_cancel (toLowerCase : string -> string)
    (s : AppState) (R : Customer.t) :
  let s1 := st (dispatch toLowerCase (fun _ => handleEdit R) s) in
  dispatch toLowerCase (fun _ => handleCancel) s1
  = {| st := {| customers := customers s;
                filteredCustomers := filteredCustomers s;
                loading := loading s;
                searchQuery := searchQuery s;
                editingCustomer := None;
                formData := FormData.empty |};
       customersReplaced := false;
       log := [] |}.
Proof.
  unfold_run. simpl. repeat (rewrite String.eqb_refl; simpl). reflexivity.
Qed.

(** What typing in one input does: that field takes the typed value,
    the three others keep the value of the render, and nothing else
    happens. *)
Lemma handleNameChange_run (toLowerCase : string -> string) (s : AppState) (v : string) :
  dispatch toLowerCase (fun render => handleNameChange render v) s
  = {| st := {| customers := customers s;
                filteredCustomers := filteredCustomers s;
                loading := loading s;
                searchQuery := searchQuery s;
                editingCustomer := editingCustomer s;
                formData := {| FormData.name := v;
                               FormData.shirt := FormData.shirt (formData s);
                               FormData.pants := FormData.pants (formData s);
                               FormData.phone := FormData.phone (formData s) |} |};
       customersReplaced := false;
       log := [] |}.
Proof.
  unfold_run. unfold_inputs. unfold_run. simpl. rewrite String.eqb_refl. reflexivity.
Qed.

Lemma handleShirtChange_run (toLowerCase : string -> string) (s : AppState) (v : string) :
  dispatch toLowerCase (fun render => handleShirtChange render v) s
  = {| st := {| customers := customers s;
                filteredCustomers := filteredCustomers s;
                loading := loading s;
                searchQuery := searchQuery s;
                editingCustomer := editingCustomer s;
                formData := {| FormData.name := FormData.name (formData s);
                               FormData.shirt := v;
                               FormData.pants := FormData.pants (formData s);
                               FormData.phone := FormData.phone (formData s) |} |};
       customersReplaced := false;
       log := [] |}.
Proof.
  unfold_run. unfold_inputs. unfold_run. simpl. rewrite String.eqb_refl. reflexivity.
Qed.

Lemma handlePantsChange_run (toLowerCase : string -> string) (s : AppState) (v : string) :
  dispatch toLowerCase (fun render => handlePantsChange render v) s
  = {| st := {| customers := customers s;
                filteredCustomers := filteredCustomers s;
                loading := loading s;
                searchQuery := searchQuery s;
                editingCustomer := editingCustomer s;
                formData := {| FormData.name := FormData.name (formData s);
                               FormData.shirt := FormData.shirt (formData s);
                               FormData.pants := v;
                               FormData.phone := FormData.phone (formData s) |} |};
       customersReplaced := false;
       log := [] |}.
Proof.
  unfold_run. unfold_inputs. unfold_run. simpl. rewrite String.eqb_refl. reflexivity.
Qed.

Lemma handlePhoneChange_run (toLowerCase : string -> string) (s : AppState) (v : string) :
  dispatch toLowerCase (fun render => handlePhoneChange render v) s
  = {| st := {| customers := customers s;
                filteredCustomers := filteredCustomers s;
                loading := loading s;
                searchQuery := searchQuery s;
                editingCustomer := editingCustomer s;
                formData := {| FormData.name := FormData.name (formData s);
                               FormData.shirt := FormData.shirt (formData s);
                               FormData.pants := FormData.pants (formData s);
                               FormData.phone := v |} |};
       customersReplaced := false;
       log := [] |}.
Proof.
  unfold_run. unfold_inputs. unfold_run. simpl. rewrite String.eqb_refl. reflexivity.
Qed.

(** X19. Typing the four fields, one turn each, and then submitting sends
    exactly the typed values, whatever the form held before: as an
    insert in create mode, as an update of the record being edited in
    editing mode. *)
Theorem typed_fields_are_submitted (toLowerCase : string -> string)
    (supabase : StoreCall -> Awaited Response.t) (s : AppState)
    (n sh p ph : string) :
  let s1 := st (dispatch toLowerCase (fun render => handleNameChange render n) s) in
  let s2 := st (dispatch toLowerCase (fun render => handleShirtChange render sh) s1) in
  let s3 := st (dispatch toLowerCase (fun render => handlePantsChange render p) s2) in
  let s4 := st (dispatch toLowerCase (fun render => handlePhoneChange render ph) s3) in
  let typed := {| FormData.name := n; FormData.shirt := sh;
                  FormData.pants := p; FormData.phone := ph |} in
  formData s4 = typed
  /\ head (storeCalls (log (dispatch toLowerCase (handleSubmit supabase) s4)))
     = Some match editingCustomer s with
            | Some R => Update typed (Customer.id R)
            | None => Insert [typed]
            end.
Proof.
  intros s1 s2 s3 s4 typed.
  assert (s4 = {| customers := customers s;
                  filteredCustomers := filteredCustomers s;
                  loading := loading s;
                  searchQuery := searchQuery s;
                  editingCustomer := editingCustomer s;
                  formData := typed |}) as ->.
  { subst s4 s3 s2 s1 typed.
    rewrite handleNameChange_run. cbn [st].
    rewrite handleShirtChange_run. cbn [st].
    rewrite handlePantsChange_run. cbn [st].
    rewrite handlePhoneChange_run. reflexivity. }
  split; [reflexivity|].
  rewrite handleSubmit_storeCalls. cbn [editingCustomer formData].
  destruct (editingCustomer s); reflexivity.
Qed.

(** X20. Deleting the record that is being edited, then submitting: the
    editing target survived the delete, so the submission issues an
    update for the id of the deleted record, with the form as it was,
    and no insert. *)
Theorem delete_edited_then_submit (toLowerCase : string -> string)
    (supabase supabase' : StoreCall -> Awaited Response.t)
    (confirm : string -> bool) (s : AppState) (R : Customer.t) :
  editingCustomer s = Some R ->
  confirm "Are you sure you want to delete this customer?" = true ->
  failure (supabase (Delete (Customer.id R))) = None ->
  let s1 := st (dispatch toLowerCase
                  (fun _ => handleDelete supabase confirm (Customer.id R)) s) in
  let calls := storeCalls (log (dispatch toLowerCase (handleSubmit supabase') s1)) in
  head calls = Some (Update (formData s) (Customer.id R))
  /\ Forall (fun c => isInsert c = false) calls.
Proof.
  intros Hmode Hyes Hok.
  destruct (handleDelete_succeeded toLowerCase supabase confirm (Customer.id R) s Hyes Hok)
    as (Hform & Hediting & _).
  simpl in *. rewrite handleSubmit_storeCalls, Hform, Hediting, Hmode.
  destruct (failure (supabase' (Update (formData s) (Customer.id R))));
    simpl; split; repeat constructor.
Qed.

Lemma delete_edited_then_submit_witness :
  let s1 := st (dispatch Js.asciiToLowerCase
                  (fun _ => handleDelete workingStore accept "1") editingAlice) in
  let calls := storeCalls (log (dispatch Js.asciiToLowerCase
                                  (handleSubmit workingStore) s1)) in
  head calls = Some (Update (formData editingAlice) "1")
  /\ Forall (fun c => isInsert c = false) calls.
Proof.
  apply (delete_edited_then_submit Js.asciiToLowerCase workingStore workingStore
           accept editingAlice alice); reflexivity.
Defined.

(** ** What the user sees after a turn *)

(** X22. After an edit request for a record the heading reads "Edit
    Customer", the four inputs show the values of the record, the
    Cancel button is visible, and the submit button, unless a request is
    in flight, reads "Update Customer"; the table is as before. *)
Theorem view_after_edit (toLowerCase : string -> string)
    (s : AppState) (R : Customer.t) :
  let v := view (st (dispatch toLowerCase (fun _ => handleEdit R) s)) in
  heading v = "Edit Customer"
  /\ nameValue v = Customer.name R
  /\ shirtValue v = Customer.shirt R
  /\ pantsValue v = Customer.pants R
  /\ phoneValue v = Customer.phone R
  /\ cancelVisible v = true
  /\ submitContent v = (if loading s then Spinner else Label "Update Customer")
  /\ tableRows v = tableRows (view s).
Proof.
  unfold_run. simpl. rewrite String.eqb_refl. simpl. repeat split; reflexivity.
Qed.

(** X23. After a submission whose mutation succeeded, whatever the
    re-fetch answers, the form is the empty create form: the heading
    reads "Add New Customer", the four inputs are empty, the Cancel
    button is hidden, and the submit button is enabled and reads "Add
    Customer". *)
Theorem view_after_successful_submit (toLowerCase : string -> string)
    (supabase : StoreCall -> Awaited Response.t) (s : AppState) :
  failure (supabase (submitCall s)) = None ->
  view (st (dispatch toLowerCase (handleSubmit supabase) s))
  = {| searchValue := searchQuery s;
       heading := "Add New Customer";
       nameValue := ""; shirtValue := ""; pantsValue := ""; phoneValue := "";
       cancelVisible := false;
       submitDisabled := false;
       submitContent := Label "Add Customer";
       tableRows := filteredCustomers
                      (st (dispatch toLowerCase (handleSubmit supabase) s));
       emptyMessage := length (filteredCustomers
                                 (st (dispatch toLowerCase (handleSubmit supabase) s)))
                       =? 0 |}.
Proof.
  intros Hm. destruct (failure (supabase Select)) as [e|] eqn:Hs.
  - rewrite (handleSubmit_refetch_failed toLowerCase supabase s e Hm Hs). reflexivity.
  - destruct (failure_None _ Hs) as [data Hd].
    rewrite (handleSubmit_refetched toLowerCase supabase s data Hm Hd). reflexivity.
Qed.

Lemma view_after_successful_submit_witness :
  view (st (dispatch Js.asciiToLowerCase (handleSubmit workingStore) editingAlice))
  = {| searchValue := "ali";
       heading := "Add New Customer";
       nameValue := ""; shirtValue := ""; pantsValue := ""; phoneValue := "";
       cancelVisible := false;
       submitDisabled := false;
       submitContent := Label "Add Customer";
       tableRows := [];
       emptyMessage := true |}.
Proof.
  apply (view_after_successful_submit Js.asciiToLowerCase workingStore editingAlice).
  reflexivity.
Defined.
